(** * auto-py-to-exe, [auto_py_to_exe/packaging.py]

    A shallow embedding of the packaging module and the verification of its
    specification.  The module drives PyInstaller: it lists PyInstaller's
    options, checks for output collisions, relays log text, runs the tool
    and moves the produced artifacts.

    Layout: Python values, exceptions and the state-and-exception monad;
    the [str] and [os.path] text functions; a tree model of the filesystem
    with the [os] / [shutil] calls the module makes; then the functions of
    [packaging.py] in source order, and the theorems. *)

From stdpp Require Import gmap strings list fin_maps.
From Stdlib Require Import ZArith Ascii String.

#[local] Open Scope string_scope.
#[local] Open Scope list_scope.
#[local] Open Scope Z_scope.

(** ** Python values and exceptions *)

(** The values that appear in a settings mapping or in the attribute
    dictionary of an [argparse] action.  The settings reach [package] from
    the user interface as decoded JSON: [None], booleans, numbers, strings
    and lists.  [VObj] stands for any other object (a callable, a parser, an
    argument group, a [pathlib] path); it is named by its [repr]. *)
#[warnings="-register-all"]
Inductive pyval :=
  | VNone
  | VBool (b : bool)
  | VInt (z : Z)
  | VStr (s : string)
  | VList (l : list pyval)
  | VObj (ref : string).

(** Truth value testing, as [if v:] does it. *)
Definition truthy (v : pyval) : bool :=
  match v with
  | VNone => false
  | VBool b => b
  | VInt z => negb (z =? 0)
  | VStr s => negb (String.eqb s "")
  | VList l => match l with [] => false | _ => true end
  | VObj _ => true
  end.

(** Plain data: what can be serialised and sent to the user interface. *)
Fixpoint plain (v : pyval) : bool :=
  match v with
  | VObj _ => false
  | VList l => forallb plain l
  | _ => true
  end.

Inductive exn :=
  | KeyError (key : string)
  | AttributeError (attr : string)
  | TypeError
  | ValueError (msg : string)
  | FileNotFoundError (p : string)
  | FileExistsError (p : string)
  | NotADirectoryError (p : string)
  | IsADirectoryError (p : string)
  | OSError (msg : string)
  | ShutilError (msg : string)
  | SystemExit (code : Z)
  | OtherError (name : string).

Inductive result (A : Type) :=
  | Ok (a : A)
  | Raise (e : exn).
Arguments Ok {A} a.
Arguments Raise {A} e.

(** ** Text: [str] methods and [posixpath] *)

Module PyStr.

(** The line feed, written ['\n'] in the source. *)
Definition nl : string := String (ascii_of_nat 10) EmptyString.

(** [s.split(c)] for a one-character separator: never the empty list. *)
Fixpoint split (c : ascii) (s : string) : list string :=
  match s with
  | EmptyString => [EmptyString]
  | String a s' =>
      if Ascii.eqb a c then EmptyString :: split c s'
      else match split c s' with
           | h :: t => String a h :: t
           | [] => [String a EmptyString]
           end
  end.

(** [sep.join(l)]. *)
Definition join (sep : string) (l : list string) : string :=
  String.concat sep l.

(** [l[:-1]]: all but the last element; the empty list stays empty. *)
Definition but_last {A} (l : list A) : list A := removelast l.

(** [c in s] for a character. *)
Fixpoint contains (c : ascii) (s : string) : bool :=
  match s with
  | EmptyString => false
  | String a s' => Ascii.eqb a c || contains c s'
  end.

(** [s.startswith(c)] and [s.endswith(c)] for a character. *)
Definition startswith (c : ascii) (s : string) : bool :=
  match s with
  | String a _ => Ascii.eqb a c
  | EmptyString => false
  end.

Fixpoint endswith (c : ascii) (s : string) : bool :=
  match s with
  | EmptyString => false
  | String a EmptyString => Ascii.eqb a c
  | String _ s' => endswith c s'
  end.

(** [s.rstrip(c)] for a character. *)
Fixpoint rstrip (c : ascii) (s : string) : string :=
  match s with
  | EmptyString => EmptyString
  | String a s' =>
      match rstrip c s' with
      | EmptyString => if Ascii.eqb a c then EmptyString else String a EmptyString
      | r => String a r
      end
  end.

(** Text is held as its UTF-8 bytes.  A code point is one byte that is not a
    continuation byte [10xxxxxx] with the continuation bytes that follow it,
    so [len(s)] counts the bytes that are not continuation bytes. *)
Definition is_continuation (c : ascii) : bool :=
  match c with
  | Ascii _ _ _ _ _ _ b6 b7 => b7 && negb b6
  end.

Fixpoint len (s : string) : Z :=
  match s with
  | EmptyString => 0
  | String c s' => (if is_continuation c then 0 else 1) + len s'
  end.

Definition sep : ascii := "/"%char.
Definition dot : ascii := "."%char.

(** [posixpath.basename]: the text after the last ['/']. *)
Definition basename (p : string) : string :=
  List.last (split sep p) EmptyString.

(** [posixpath.join(a, b)] for two arguments. *)
Definition path_join (a b : string) : string :=
  if startswith sep b then b
  else if String.eqb a "" || endswith sep a then a +:+ b
  else a +:+ String sep b.

End PyStr.

(** ** The filesystem

    A tree of files and directories; a directory maps entry names to nodes.
    Path strings become lists of components in two ways: [resolve]
    normalises the text as [os.path.normpath] does, [walk] follows the tree
    as the kernel does and fails where a component is taken from a missing
    directory or from a file.  Where [walk] succeeds the two agree; the
    calls of [os] and [shutil] below go by [resolve].  There are no symbolic
    links, permissions or devices in the model. *)

Module Fs.

#[warnings="-register-all"]
Inductive node :=
  | File (data : string)
  | Dir (entries : gmap string node).

Definition path := list string.

(** The node a path leads to, from the root. *)
Fixpoint get (p : path) (n : node) : option node :=
  match p with
  | [] => Some n
  | c :: p' =>
      match n with
      | Dir es => match es !! c with Some m => get p' m | None => None end
      | File _ => None
      end
  end.

(** Rewrite the entries of the directory at [p] with [f]; fails when [p] is
    not a directory. *)
Fixpoint update (p : path) (f : gmap string node → gmap string node) (n : node)
  {struct p} : option node :=
  match n with
  | File _ => None
  | Dir es =>
      match p with
      | [] => Some (Dir (f es))
      | c :: p' =>
          match es !! c with
          | Some m =>
              match update p' f m with
              | Some m' => Some (Dir (<[c:=m']> es))
              | None => None
              end
          | None => None
          end
      end
  end.

(** A chain of fresh nested directories. *)
Fixpoint mkchain (p : path) : node :=
  match p with
  | [] => Dir ∅
  | c :: p' => Dir {[ c := mkchain p' ]}
  end.

(** Create the directory [p] with every missing ancestor; fails when [p]
    exists or an ancestor is a file. *)
Fixpoint mkdirs (p : path) (n : node) {struct p} : option node :=
  match n with
  | File _ => None
  | Dir es =>
      match p with
      | [] => None
      | c :: p' =>
          match es !! c with
          | Some m =>
              match mkdirs p' m with
              | Some m' => Some (Dir (<[c:=m']> es))
              | None => None
              end
          | None => Some (Dir (<[c:=mkchain p']> es))
          end
      end
  end.

(** A path split into its parent and its last component. *)
Fixpoint split_last (p : path) : option (path * string) :=
  match p with
  | [] => None
  | [c] => Some ([], c)
  | c :: p' =>
      match split_last p' with
      | Some (q, l) => Some (c :: q, l)
      | None => None
      end
  end.

Definition is_file (o : option node) : bool :=
  match o with Some (File _) => true | _ => false end.
Definition is_dir (o : option node) : bool :=
  match o with Some (Dir _) => true | _ => false end.
Definition exists_ (o : option node) : bool :=
  match o with Some _ => true | None => false end.

(** Unlink the entry [p], whatever it is. *)
Definition unlink (p : path) (n : node) : option node :=
  match split_last p with
  | Some (q, c) => update q (delete c) n
  | None => None
  end.

(** Bind the name [p] to the node [x]; the parent must be a directory. *)
Definition link (p : path) (x : node) (n : node) : option node :=
  match split_last p with
  | Some (q, c) => update q (<[c:=x]>) n
  | None => None
  end.

(** [q] is [p] or lies under [p]. *)
Definition under (p q : path) : bool := bool_decide (p `prefix_of` q).

(** [rename(2)]: an existing target is replaced when it is a file and the
    source is a file, or an empty directory and the source is a directory; a
    directory cannot be moved under itself. *)
Definition rename (ps pd : path) (n : node) : option node :=
  match get ps n with
  | None => None
  | Some x =>
      if bool_decide (ps = pd) then Some n
      else if under ps pd then None
      else
        let replaceable :=
          match get pd n, x with
          | None, _ => true
          | Some (File _), File _ => true
          | Some (Dir es), Dir _ => bool_decide (es = ∅)
          | _, _ => false
          end in
        if replaceable then
          match unlink ps n with
          | Some n1 => link pd x n1
          | None => None
          end
        else None
  end.

(** One lexical resolution step: [""] and ["."] stay, [".."] goes up. *)
Definition step (acc : path) (c : string) : path :=
  if String.eqb c "" || String.eqb c "." then acc
  else if String.eqb c ".." then removelast acc
  else acc ++ [c].

(** The component list a path string denotes, from the working directory
    [cwd]; the empty string denotes nothing. *)
Definition resolve (cwd : path) (p : string) : option path :=
  if String.eqb p "" then None
  else Some (fold_left step (PyStr.split PyStr.sep p)
               (if PyStr.startswith PyStr.sep p then [] else cwd)).

(** Resolution as the kernel does it, component by component on the tree: a
    component, also [""], ["."] and [".."], is taken only from a directory,
    so [none/..] fails when [none] is missing and [file/] fails on a file.
    The last component need not exist. *)
Fixpoint walk (root : node) (comps : list string) (acc : path) : option path :=
  match comps with
  | [] => Some acc
  | c :: rest =>
      match get acc root with
      | Some (Dir _) => walk root rest (step acc c)
      | _ => None
      end
  end.

(** The absolute path string of a component list. *)
Definition render (p : path) : string :=
  String PyStr.sep (PyStr.join "/" p).

(** A path string that starts with exactly two slashes. *)
Definition double_slash (p : string) : bool :=
  match p with
  | String a (String b rest) =>
      Ascii.eqb a PyStr.sep && Ascii.eqb b PyStr.sep
      && negb (PyStr.startswith PyStr.sep rest)
  | _ => false
  end.

(** [posixpath.abspath]: the path is joined to the working directory unless
    it is absolute and normalised lexically; exactly two leading slashes are
    kept, and the empty string gives the working directory. *)
Definition abspath (cwd : path) (p : string) : string :=
  let normal := render (default cwd (resolve cwd p)) in
  if double_slash p then String PyStr.sep normal else normal.



End Fs.

(** ** The interpreter state and the monad of effects *)

(** What a run does that an observer can see, in order: the strings handed to
    the output callback, and the entry and exit of the two collaborators the
    orchestrator calls. *)
Inductive callee :=
  | RunPyInstaller (argv : list string) (limit : Z)
  | MovePackage (src dst : string).

Inductive event :=
  | Output (s : string)
  | Enter (c : callee)
  | Leave (c : callee) (r : option exn).

(** The process-wide state the module reads and writes: the filesystem with
    the working directory, [sys.getrecursionlimit()] and [sys.argv]. *)
Record World := mkWorld {
  fs : Fs.node;
  cwd : Fs.path;
  recursion_limit : Z;
  argv : list string
}.

Definition set_fs (n : Fs.node) (w : World) : World :=
  mkWorld n (cwd w) (recursion_limit w) (argv w).
Definition set_recursion_limit (z : Z) (w : World) : World :=
  mkWorld (fs w) (cwd w) z (argv w).
Definition set_argv (a : list string) (w : World) : World :=
  mkWorld (fs w) (cwd w) (recursion_limit w) a.

(** State, exceptions and an event log: a computation maps the world to a
    result, the world it leaves and the events it emitted.  An exception
    keeps the world and the events reached when it was raised. *)
Definition M (A : Type) : Type := World → result A * World * list event.

Definition ret {A} (a : A) : M A := λ w, (Ok a, w, []).
Definition raise {A} (e : exn) : M A := λ w, (Raise e, w, []).
Definition bind {A B} (m : M A) (k : A → M B) : M B := λ w,
  match m w with
  | (Ok a, w1, ev1) =>
      match k a w1 with
      | (r, w2, ev2) => (r, w2, ev1 ++ ev2)
      end
  | (Raise e, w1, ev1) => (Raise e, w1, ev1)
  end.

(** [try: body / except: handler]; the bare [except] catches everything. *)
Definition try_except {A} (body : M A) (handler : exn → M A) : M A := λ w,
  match body w with
  | (Ok a, w1, ev1) => (Ok a, w1, ev1)
  | (Raise e, w1, ev1) =>
      match handler e w1 with
      | (r, w2, ev2) => (r, w2, ev1 ++ ev2)
      end
  end.

Definition emit (e : event) : M unit := λ w, (Ok tt, w, [e]).
Definition gets {A} (f : World → A) : M A := λ w, (Ok (f w), w, []).
Definition modify (f : World → World) : M unit := λ w, (Ok tt, f w, []).
Definition lift_option {A} (o : option A) (e : exn) : M A :=
  match o with Some a => ret a | None => raise e end.

Declare Scope py_scope.
Delimit Scope py_scope with py.
Notation "x <- c ;; k" := (bind c (λ x, k))
  (at level 100, c at next level, k at level 200, right associativity) : py_scope.
Notation "c ;;; k" := (bind c (λ _, k))
  (at level 100, k at level 200, right associativity) : py_scope.
#[local] Open Scope py_scope.

(** [for x in l: body x], stopping at the first exception. *)
Fixpoint for_each {A} (l : list A) (body : A → M unit) : M unit :=
  match l with
  | [] => ret tt
  | x :: l' => body x ;;; for_each l' body
  end.

(** The exception a result carries, if any. *)
Definition exn_of {A} (r : result A) : option exn :=
  match r with Ok _ => None | Raise e => Some e end.

(** Bracket a call with its entry and exit events; the result and the world
    are those of the call. *)
Definition observe {A} (c : callee) (m : M A) : M A := λ w,
  match m w with
  | (r, w1, ev) => (r, w1, Enter c :: ev ++ [Leave c (exn_of r)])
  end.

(** A computation that emits no event. *)
Definition silent {A} (m : M A) : Prop := ∀ w, (m w).2 = [].

(** The output callback, [output_function] in the source, is any computation
    on a string: it may change the world, emit events and raise.  [sink] is
    the callback that records its argument and returns. *)
Definition callback := string → M unit.
Definition sink : callback := λ s, emit (Output s).

(** The world one call of a callback leaves and the events it emits. *)
Definition after (f : callback) (s : string) (w : World) : World := (f s w).1.2.
Definition heard (f : callback) (s : string) (w : World) : list event := (f s w).2.

(** A callback that returns from every call, and one whose events are lines
    of output only: it does not itself enter PyInstaller or the mover. *)
Definition returns (f : callback) : Prop := ∀ s w, (f s w).1.1 = Ok tt.
Definition speaks_only (f : callback) : Prop :=
  ∀ s w ev, ev ∈ heard f s w → ∃ t, ev = Output t.

(** ** The [os], [os.path] and [shutil] calls of the module *)

Module Os.

(** The node a path string names in a world. *)
Definition stat (p : string) (w : World) : option Fs.node :=
  match Fs.resolve (cwd w) p with
  | Some q => Fs.get q (fs w)
  | None => None
  end.

(** Where the kernel gets with a path string, every component on the way
    looked up in the tree, and the node it finds there.  Where it finds a
    node, [stat] gives the same one. *)
Definition locate (p : string) (w : World) : option Fs.path :=
  if String.eqb p "" then None
  else Fs.walk (fs w) (PyStr.split PyStr.sep p)
         (if PyStr.startswith PyStr.sep p then [] else cwd w).

Definition found (p : string) (w : World) : option Fs.node :=
  match locate p w with
  | Some q => Fs.get q (fs w)
  | None => None
  end.

Definition path_exists (p : string) : M bool := gets (λ w, Fs.exists_ (stat p w)).
Definition path_isfile (p : string) : M bool := gets (λ w, Fs.is_file (stat p w)).
Definition path_isdir (p : string) : M bool := gets (λ w, Fs.is_dir (stat p w)).

(** [os.path.abspath]. *)
Definition path_abspath (p : string) : M string :=
  gets (λ w, Fs.abspath (cwd w) p).

(** [os.listdir]: the entry names of a directory, in the order the map
    enumerates them. *)
Definition listdir (p : string) : M (list string) := λ w,
  match stat p w with
  | Some (Fs.Dir es) => (Ok (map_to_list es).*1, w, [])
  | Some (Fs.File _) => (Raise (NotADirectoryError p), w, [])
  | None => (Raise (FileNotFoundError p), w, [])
  end.

(** Replace the filesystem by the outcome of a tree operation, or raise. *)
Definition commit (o : option Fs.node) (e : exn) : M unit :=
  match o with
  | Some n => modify (set_fs n)
  | None => raise e
  end.

(** [os.makedirs(p)] without [exist_ok]. *)
Definition makedirs (p : string) : M unit := λ w,
  match Fs.resolve (cwd w) p with
  | None => (Raise (FileNotFoundError p), w, [])
  | Some q =>
      match Fs.get q (fs w) with
      | Some _ => (Raise (FileExistsError p), w, [])
      | None => commit (Fs.mkdirs q (fs w)) (NotADirectoryError p) w
      end
  end.

(** [os.remove] / [os.unlink]: files only. *)
Definition remove (p : string) : M unit := λ w,
  match Fs.resolve (cwd w) p with
  | None => (Raise (FileNotFoundError p), w, [])
  | Some q =>
      match Fs.get q (fs w) with
      | Some (Fs.File _) => commit (Fs.unlink q (fs w)) (OSError p) w
      | Some (Fs.Dir _) => (Raise (IsADirectoryError p), w, [])
      | None => (Raise (FileNotFoundError p), w, [])
      end
  end.

(** [shutil.rmtree]: directories only, with all they contain. *)
Definition rmtree (p : string) : M unit := λ w,
  match Fs.resolve (cwd w) p with
  | None => (Raise (FileNotFoundError p), w, [])
  | Some q =>
      match Fs.get q (fs w) with
      | Some (Fs.Dir _) => commit (Fs.unlink q (fs w)) (OSError p) w
      | Some (Fs.File _) => (Raise (NotADirectoryError p), w, [])
      | None => (Raise (FileNotFoundError p), w, [])
      end
  end.

(** [os.rename]. *)
Definition rename (src dst : string) : M unit := λ w,
  match Fs.resolve (cwd w) src, Fs.resolve (cwd w) dst with
  | Some ps, Some pd => commit (Fs.rename ps pd (fs w)) (OSError src) w
  | _, _ => (Raise (FileNotFoundError src), w, [])
  end.

(** [shutil._samefile] and [shutil._destinsrc], on resolved paths. *)
Definition samefile (src dst : string) : M bool :=
  gets (λ w, match Fs.resolve (cwd w) src, Fs.resolve (cwd w) dst with
             | Some ps, Some pd => bool_decide (ps = pd)
             | _, _ => false
             end).
Definition destinsrc (src dst : string) : M bool :=
  gets (λ w, match Fs.resolve (cwd w) src, Fs.resolve (cwd w) dst with
             | Some ps, Some pd => Fs.under ps pd
             | _, _ => false
             end).

(** [shutil.copytree(src, dst)]: [dst] is created with [os.makedirs] and
    receives the tree under [src]. *)
Definition copytree (src dst : string) : M unit := λ w,
  match stat src w with
  | Some (Fs.Dir es) =>
      (makedirs dst ;;;
       λ w1, match Fs.resolve (cwd w1) dst with
             | Some pd => commit (Fs.update pd (λ _, es) (fs w1)) (OSError dst) w1
             | None => (Raise (FileNotFoundError dst), w1, [])
             end) w
  | Some (Fs.File _) => (Raise (NotADirectoryError src), w, [])
  | None => (Raise (FileNotFoundError src), w, [])
  end.

(** [shutil.copy2(src, dst)] where [dst] is not a directory. *)
Definition copy2 (src dst : string) : M unit := λ w,
  match stat src w, Fs.resolve (cwd w) dst with
  | Some (Fs.File d), Some pd =>
      match Fs.get pd (fs w) with
      | Some (Fs.Dir _) => (Raise (IsADirectoryError dst), w, [])
      | _ => commit (Fs.link pd (Fs.File d) (fs w)) (FileNotFoundError dst) w
      end
  | Some (Fs.Dir _), _ => (Raise (IsADirectoryError src), w, [])
  | _, _ => (Raise (FileNotFoundError src), w, [])
  end.

(** [shutil.move(src, dst)]: into [dst] when it is a directory, onto [dst]
    otherwise; [os.rename] first, copy and delete when it fails. *)
Definition move_onto (src dst real_dst : string) : M unit :=
  try_except (rename src real_dst)
    (λ _,
       srcdir <- path_isdir src ;;
       if srcdir : bool then
         inside <- destinsrc src dst ;;
         if inside : bool
         then raise (ShutilError "Cannot move a directory into itself")
         else copytree src real_dst ;;; rmtree src
       else copy2 src real_dst ;;; remove src).

Definition move (src dst : string) : M unit :=
  dstdir <- path_isdir dst ;;
  if dstdir : bool then
    same <- samefile src dst ;;
    if same : bool then rename src dst
    else
      let real_dst :=
        PyStr.path_join dst (PyStr.basename (PyStr.rstrip PyStr.sep src)) in
      taken <- path_exists real_dst ;;
      if taken : bool
      then raise (ShutilError "Destination path already exists")
      else move_onto src dst real_dst
  else move_onto src dst dst.

End Os.

(** ** What the module imports

    [config] and [__version__] are modules of the repository that the
    packaging module only reads; PyInstaller, [shlex] and [traceback] are
    libraries.  They enter as an environment. *)

(** An [argparse] action is its attribute dictionary; a parser is the list
    [parser._actions]. *)
Abbreviation action := (gmap string pyval).
Abbreviation parser := (list (gmap string pyval)).

Record Env := mkEnv {
  (** [auto_py_to_exe.__version__] *)
  version : string;
  (** [config.temporary_directory] *)
  temporary_directory : string;
  (** [config.DEFAULT_RECURSION_LIMIT] *)
  DEFAULT_RECURSION_LIMIT : Z;
  (** [shlex.split] *)
  shlex_split : string → result (list string);
  (** [traceback.format_exc()] for the exception being handled *)
  format_exc : exn → string;
  (** [PyInstaller.__main__.run], reading and writing the process state *)
  pyinstaller_main : World → result unit * World;
  (** the three [__add_options] functions of PyInstaller *)
  add_makespec_options : parser → parser;
  add_build_options : parser → parser;
  add_log_options : parser → parser;
  (** [os.fspath] of the object with this [repr]: its path when the object
      is [os.PathLike], nothing when [os.fspath] raises [TypeError] *)
  fspath : string → option string
}.

(** ** [argparse], [sys] and [dict] as the module uses them *)

Definition container_ref : pyval := VObj "<argparse.ArgumentParser>".

(** [argparse.ArgumentParser()]: a parser holding its [-h] action. *)
Definition ArgumentParser : parser :=
  [ list_to_map
      [ ("option_strings", VList [VStr "-h"; VStr "--help"]);
        ("dest", VStr "help");
        ("nargs", VInt 0);
        ("const", VNone);
        ("default", VStr "==SUPPRESS==");
        ("type", VNone);
        ("choices", VNone);
        ("required", VBool false);
        ("help", VStr "show this help message and exit");
        ("metavar", VNone);
        ("container", container_ref) ] ].

(** [parser.add_argument(dest, metavar=, nargs='+', help=)] for a
    positional argument. *)
Definition add_positional (dest metavar help : string) (p : parser) : parser :=
  p ++ [ list_to_map
           [ ("option_strings", VList []);
             ("dest", VStr dest);
             ("nargs", VStr "+");
             ("const", VNone);
             ("default", VNone);
             ("type", VNone);
             ("choices", VNone);
             ("required", VBool true);
             ("help", VStr help);
             ("metavar", VStr metavar);
             ("container", container_ref) ] ].

(** [del obj.name] *)
Definition del_attr (name : string) (a : action) : result action :=
  match a !! name with
  | Some _ => Ok (delete name a)
  | None => Raise (AttributeError name)
  end.

(** [d[key]] *)
Definition dict_getitem (d : gmap string pyval) (key : string) : M pyval :=
  match d !! key with
  | Some v => ret v
  | None => raise (KeyError key)
  end.

(** [sys.setrecursionlimit]; a limit below 1 is a [ValueError]. *)
Definition sys_setrecursionlimit (n : Z) : M unit :=
  if n <? 1 then raise (ValueError "recursion limit must be greater or equal than 1")
  else modify (set_recursion_limit n).

(** [os.fspath]: the path a value gives, a string as it is and a path-like
    object through [__fspath__]; no other value gives one. *)
Definition path_of (E : Env) (v : pyval) : option string :=
  match v with
  | VStr s => Some s
  | VObj ref => fspath E ref
  | _ => None
  end.

(** The values no path can be had from, whatever the objects are:
    [os.fspath] raises [TypeError] on each. *)
Definition no_path (v : pyval) : bool :=
  match v with
  | VNone | VBool _ | VInt _ | VList _ => true
  | VStr _ | VObj _ => false
  end.

(** [os.path.abspath] of a value: a [TypeError] unless it gives a path. *)
Definition abspath_of (E : Env) (v : pyval) : M string :=
  match path_of E v with
  | Some s => Os.path_abspath s
  | None => raise TypeError
  end.

Definition lift_result {A} (r : result A) : M A :=
  match r with Ok a => ret a | Raise e => raise e end.

(** [run_pyinstaller()], observed with the [sys.argv] and the recursion limit
    it starts under. *)
Definition run_pyinstaller (E : Env) : M unit := λ w,
  observe (RunPyInstaller (argv w) (recursion_limit w))
    (λ w0, let '(r, w1) := pyinstaller_main E w0 in (r, w1, [])) w.

(** ** The functions of [packaging.py] *)

Definition __get_pyinstaller_argument_parser (E : Env) : parser :=
  let parser := ArgumentParser in
  let parser := add_makespec_options E parser in
  let parser := add_build_options E parser in
  let parser := add_log_options E parser in
  add_positional "filenames" "scriptname"
    ("name of scriptfiles to be processed or "
     +:+ "exactly one .spec-file. If a .spec-file is "
     +:+ "specified, most options are unnecessary "
     +:+ "and are ignored.") parser.

(** The loop of [get_pyinstaller_options]: [options] accumulates the actions
    whose [container] has been deleted. *)
Fixpoint clean_actions (actions options : parser) : result parser :=
  match actions with
  | [] => Ok options
  | action :: rest =>
      match del_attr "container" action with
      | Ok action' => clean_actions rest (options ++ [action'])
      | Raise e => Raise e
      end
  end.

Definition get_pyinstaller_options (E : Env) : result parser :=
  let parser := __get_pyinstaller_argument_parser E in
  clean_actions parser [].

Definition will_packaging_overwrite_existing
    (file_path : string) (one_file : bool) (output_folder : string) : M bool :=
  there <- Os.path_exists output_folder ;;
  if negb there then ret false
  else
    let no_extension :=
      PyStr.join "." (PyStr.but_last (PyStr.split PyStr.dot (PyStr.basename file_path))) in
    if one_file then
      names <- Os.listdir output_folder ;;
      if bool_decide (no_extension +:+ ".exe" ∈ names) then ret true else ret false
    else
      names <- Os.listdir output_folder ;;
      if bool_decide (no_extension ∈ names) then ret true else ret false.

(** The body of the loop of [__move_package]. *)
Definition move_entry (src dst file_or_folder : string) : M unit :=
  let _dst := PyStr.path_join dst file_or_folder in
  (there <- Os.path_exists _dst ;;
   if there : bool then
     isfile <- Os.path_isfile _dst ;;
     if isfile : bool then Os.remove _dst else Os.rmtree _dst
   else ret tt) ;;;
  Os.move (PyStr.path_join src file_or_folder) dst.

Definition __move_package (src dst : string) : M unit :=
  observe (MovePackage src dst)
    ((there <- Os.path_exists dst ;;
      if negb there then Os.makedirs dst else ret tt) ;;;
     names <- Os.listdir src ;;
     for_each names (move_entry src dst)).

Record ForwardToFunctionStream := mkStream {
  output_function : callback
}.

Definition write (self : ForwardToFunctionStream) (string : string) : M Z :=
  output_function self string ;;;
  ret (PyStr.len string).

Definition package (E : Env) (pyinstaller_command : string)
    (options : gmap string pyval) (output_function : callback) : M bool :=
  output_function ("Running auto-py-to-exe v" +:+ version E) ;;;
  output_function ("Building directory: " +:+ temporary_directory E +:+ PyStr.nl) ;;;
  let dist_path := PyStr.path_join (temporary_directory E) "application" in
  let build_path := PyStr.path_join (temporary_directory E) "build" in
  let extra_args :=
    ["--distpath"; dist_path] ++ ["--workpath"; build_path]
    ++ ["--specpath"; temporary_directory E] in
  output_function ("Provided command: " +:+ pyinstaller_command +:+ PyStr.nl) ;;;
  increase_recursion_limit <- dict_getitem options "increaseRecursionLimit" ;;
  output_directory_setting <- dict_getitem options "outputDirectory" ;;
  output_directory <- abspath_of E output_directory_setting ;;
  (if truthy increase_recursion_limit then
     sys_setrecursionlimit 5000 ;;;
     output_function ("Recursion Limit is set to 5000" +:+ PyStr.nl)
   else sys_setrecursionlimit (DEFAULT_RECURSION_LIMIT E)) ;;;
  fail <- try_except
    (tokens <- lift_result (shlex_split E pyinstaller_command) ;;
     modify (set_argv (tokens ++ extra_args)) ;;;
     sys_argv <- gets argv ;;
     output_function ("Executing: " +:+ PyStr.join " " sys_argv +:+ PyStr.nl) ;;;
     output_function PyStr.nl ;;;
     run_pyinstaller E ;;;
     ret false)
    (λ e,
       output_function ("An error occurred, traceback follows:" +:+ PyStr.nl) ;;;
       output_function (format_exc E e) ;;;
       ret true) ;;
  output_function PyStr.nl ;;;
  if negb fail then
    output_function ("Moving project to: " +:+ output_directory +:+ PyStr.nl) ;;;
    try_except (__move_package dist_path output_directory)
      (λ e,
         output_function ("Failed to move project, traceback follows:" +:+ PyStr.nl) ;;;
         output_function (format_exc E e)) ;;;
    ret true
  else
    output_function ("Project output will not be moved to output folder" +:+ PyStr.nl) ;;;
    ret false.

(** ** Notions the statements use *)

(** The name [will_packaging_overwrite_existing] looks for, as the source
    computes it. *)
Definition artifact_name (file_path : string) (one_file : bool) : string :=
  let no_extension :=
    PyStr.join "." (PyStr.but_last (PyStr.split PyStr.dot (PyStr.basename file_path))) in
  if one_file then no_extension +:+ ".exe" else no_extension.

(** The specification's wording, "strip the last extension": the text before
    the last dot, and the whole name when it has no dot. *)
Fixpoint strip_last_extension (name : string) : string :=
  match name with
  | EmptyString => EmptyString
  | String a rest =>
      if negb (PyStr.contains PyStr.dot rest) && Ascii.eqb a PyStr.dot then EmptyString
      else String a (strip_last_extension rest)
  end.

Definition spec_artifact_name (file_path : string) (one_file : bool) : string :=
  let stem := strip_last_extension (PyStr.basename file_path) in
  if one_file then stem +:+ ".exe" else stem.

(** A record whose values are all plain data. *)
Definition plain_record (r : gmap string pyval) : Prop :=
  map_Forall (λ _ v, plain v = true) r.

(** The entries [S] of the source have arrived in the world [w']: each is
    in the destination under its name and no longer in the source. *)
Definition arrived (src dst : string) (S : gmap string Fs.node) (w' : World) : Prop :=
  ∀ name x, S !! name = Some x →
    Os.stat (PyStr.path_join dst name) w' = Some x
    ∧ Os.stat (PyStr.path_join src name) w' = None.

(** [__move_package src dst] did its work from the world [w]: it returned,
    and every entry the source directory had has arrived. *)
Definition moved_all (src dst : string) (w : World) : Prop :=
  ∀ S, Os.stat src w = Some (Fs.Dir S) →
    (__move_package src dst w).1.1 = Ok tt
    ∧ arrived src dst S (__move_package src dst w).1.2.

(** ** The shapes of a run of [package]

    The forced overrides, the lines every run starts with, and the seven ways
    a run can go, each with its result and its events. *)

Definition dist_path (E : Env) : string :=
  PyStr.path_join (temporary_directory E) "application".
Definition build_path (E : Env) : string :=
  PyStr.path_join (temporary_directory E) "build".

Definition forced_overrides (E : Env) : list string :=
  [ "--distpath"; dist_path E; "--workpath"; build_path E;
    "--specpath"; temporary_directory E ].

Definition prelude (E : Env) (cmd : string) : list event :=
  [ Output ("Running auto-py-to-exe v" +:+ version E);
    Output ("Building directory: " +:+ temporary_directory E +:+ PyStr.nl);
    Output ("Provided command: " +:+ cmd +:+ PyStr.nl) ].

Definition chosen_limit (E : Env) (v : pyval) : Z :=
  if truthy v then 5000 else DEFAULT_RECURSION_LIMIT E.

Definition limit_lines (v : pyval) : list event :=
  if truthy v then [ Output ("Recursion Limit is set to 5000" +:+ PyStr.nl) ] else [].

Definition executing_lines (a : list string) : list event :=
  [ Output ("Executing: " +:+ PyStr.join " " a +:+ PyStr.nl); Output PyStr.nl ].

Definition failure_lines (E : Env) (e : exn) : list event :=
  [ Output ("An error occurred, traceback follows:" +:+ PyStr.nl);
    Output (format_exc E e);
    Output PyStr.nl;
    Output ("Project output will not be moved to output folder" +:+ PyStr.nl) ].

(** The world [run_pyinstaller] starts in, and the absolute output
    directory, both taken from the world [package] is called in. *)
Definition invocation_world (E : Env) (v : pyval) (tokens : list string)
    (w : World) : World :=
  set_argv (tokens ++ forced_overrides E)
    (set_recursion_limit (chosen_limit E v) w).

Definition output_directory (s : string) (w : World) : string :=
  Fs.abspath (cwd w) s.

Inductive package_run (E : Env) (cmd : string) (options : gmap string pyval)
    (w : World) : result bool → World → list event → Prop :=
  | run_missing_key key :
      (key = "increaseRecursionLimit" ∨ key = "outputDirectory") →
      options !! key = None →
      package_run E cmd options w (Raise (KeyError key)) w (prelude E cmd)
  | run_bad_directory v o :
      options !! "increaseRecursionLimit" = Some v →
      options !! "outputDirectory" = Some o →
      path_of E o = None →
      package_run E cmd options w (Raise TypeError) w (prelude E cmd)
  | run_bad_limit v o s msg :
      options !! "increaseRecursionLimit" = Some v →
      options !! "outputDirectory" = Some o →
      path_of E o = Some s →
      chosen_limit E v < 1 →
      package_run E cmd options w (Raise (ValueError msg)) w (prelude E cmd)
  | run_bad_command v o s e :
      options !! "increaseRecursionLimit" = Some v →
      options !! "outputDirectory" = Some o →
      path_of E o = Some s →
      1 ≤ chosen_limit E v →
      shlex_split E cmd = Raise e →
      package_run E cmd options w (Ok false)
        (set_recursion_limit (chosen_limit E v) w)
        (prelude E cmd ++ limit_lines v ++ failure_lines E e)
  | run_tool_failed v o s tokens e w1 :
      options !! "increaseRecursionLimit" = Some v →
      options !! "outputDirectory" = Some o →
      path_of E o = Some s →
      1 ≤ chosen_limit E v →
      shlex_split E cmd = Ok tokens →
      pyinstaller_main E (invocation_world E v tokens w) = (Raise e, w1) →
      let c := RunPyInstaller (tokens ++ forced_overrides E) (chosen_limit E v) in
      package_run E cmd options w (Ok false) w1
        (prelude E cmd ++ limit_lines v
         ++ executing_lines (tokens ++ forced_overrides E)
         ++ [Enter c; Leave c (Some e)] ++ failure_lines E e)
  | run_moved v o s tokens w1 w2 ev :
      options !! "increaseRecursionLimit" = Some v →
      options !! "outputDirectory" = Some o →
      path_of E o = Some s →
      1 ≤ chosen_limit E v →
      shlex_split E cmd = Ok tokens →
      pyinstaller_main E (invocation_world E v tokens w) = (Ok tt, w1) →
      __move_package (dist_path E) (output_directory s w) w1 = (Ok tt, w2, ev) →
      let c := RunPyInstaller (tokens ++ forced_overrides E) (chosen_limit E v) in
      let m := MovePackage (dist_path E) (output_directory s w) in
      package_run E cmd options w (Ok true) w2
        (prelude E cmd ++ limit_lines v
         ++ executing_lines (tokens ++ forced_overrides E)
         ++ [Enter c; Leave c None]
         ++ [Output PyStr.nl;
             Output ("Moving project to: " +:+ output_directory s w +:+ PyStr.nl)]
         ++ [Enter m; Leave m None])
  | run_move_failed v o s tokens w1 w2 ev e :
      options !! "increaseRecursionLimit" = Some v →
      options !! "outputDirectory" = Some o →
      path_of E o = Some s →
      1 ≤ chosen_limit E v →
      shlex_split E cmd = Ok tokens →
      pyinstaller_main E (invocation_world E v tokens w) = (Ok tt, w1) →
      __move_package (dist_path E) (output_directory s w) w1 = (Raise e, w2, ev) →
      let c := RunPyInstaller (tokens ++ forced_overrides E) (chosen_limit E v) in
      let m := MovePackage (dist_path E) (output_directory s w) in
      package_run E cmd options w (Ok true) w2
        (prelude E cmd ++ limit_lines v
         ++ executing_lines (tokens ++ forced_overrides E)
         ++ [Enter c; Leave c None]
         ++ [Output PyStr.nl;
             Output ("Moving project to: " +:+ output_directory s w +:+ PyStr.nl)]
         ++ [Enter m; Leave m (Some e)]
         ++ [Output ("Failed to move project, traceback follows:" +:+ PyStr.nl);
             Output (format_exc E e)]).

(** What a run of [package] with a callback [f] that returns lets an
    observer see: lines heard by [f], each in the world the call was made
    in, around at most one call of PyInstaller and one of the mover.  The
    traceback [f] hears is that of the exception the failed call was left
    with. *)
Inductive package_heard (E : Env) (f : callback) : result bool → list event → Prop :=
  | heard_line s w r evs :
      package_heard E f r evs → package_heard E f r (heard f s w ++ evs)
  | heard_nothing r :
      package_heard E f r []
  | heard_tool_failed a l e w1 w2 w3 w4 :
      let c := RunPyInstaller a l in
      package_heard E f (Ok false)
        (Enter c :: Leave c (Some e)
         :: heard f ("An error occurred, traceback follows:" +:+ PyStr.nl) w1
         ++ heard f (format_exc E e) w2
         ++ heard f PyStr.nl w3
         ++ heard f ("Project output will not be moved to output folder" +:+ PyStr.nl) w4)
  | heard_moved a l src dst w1 w2 s :
      let c := RunPyInstaller a l in
      let m := MovePackage src dst in
      package_heard E f (Ok true)
        (Enter c :: Leave c None
         :: heard f PyStr.nl w1
         ++ heard f ("Moving project to: " +:+ s +:+ PyStr.nl) w2
         ++ [Enter m; Leave m None])
  | heard_move_failed a l src dst e w1 w2 w3 w4 s :
      let c := RunPyInstaller a l in
      let m := MovePackage src dst in
      package_heard E f (Ok true)
        (Enter c :: Leave c None
         :: heard f PyStr.nl w1
         ++ heard f ("Moving project to: " +:+ s +:+ PyStr.nl) w2
         ++ Enter m :: Leave m (Some e)
         :: heard f ("Failed to move project, traceback follows:" +:+ PyStr.nl) w3
         ++ heard f (format_exc E e) w4).

(** ** Worked data

    A small filesystem, three behaviours of PyInstaller and the environments
    built from them; the closed examples below run on these. *)

Module Examples.

(** [shlex.split] on commands without quotes or escapes: the words between
    spaces. *)
Definition words (s : string) : result (list string) :=
  Ok (List.filter (λ x, negb (String.eqb x "")) (PyStr.split " "%char s)).

(** [/tmp/ws] is the empty workspace; [/home/out] holds an earlier output. *)
Definition earlier_output : gmap string Fs.node :=
  list_to_map [ ("script", Fs.Dir ∅); ("app.exe", Fs.File "old") ].

Definition tree : Fs.node :=
  Fs.Dir (list_to_map
    [ ("tmp", Fs.Dir {[ "ws" := Fs.Dir ∅ ]});
      ("home", Fs.Dir {[ "out" := Fs.Dir earlier_output ]}) ]).

Definition world : World := mkWorld tree ["home"] 1000 [].

(** PyInstaller writing [application/app.exe] into the workspace. *)
Definition build_ok (w : World) : result unit * World :=
  match Fs.update ["tmp"; "ws"]
          (<["application" := Fs.Dir {[ "app.exe" := Fs.File "new" ]}]>) (fs w) with
  | Some n => (Ok tt, set_fs n w)
  | None => (Raise (OSError "/tmp/ws"), w)
  end.

(** The world after that build. *)
Definition built : World := (build_ok world).2.

(** PyInstaller exiting with an error. *)
Definition build_fails (w : World) : result unit * World :=
  (Raise (SystemExit 1), w).

(** PyInstaller returning without having written anything. *)
Definition build_nothing (w : World) : result unit * World := (Ok tt, w).

Definition traceback (e : exn) : string :=
  match e with
  | SystemExit _ => "Traceback (most recent call last): SystemExit"
  | FileNotFoundError p => "Traceback (most recent call last): FileNotFoundError: " +:+ p
  | _ => "Traceback (most recent call last)"
  end.

Definition env (tool : World → result unit * World) : Env :=
  mkEnv "2.5.0" "/tmp/ws" 1000 words traceback tool id id id (λ _, None).

Definition settings : gmap string pyval :=
  list_to_map [ ("increaseRecursionLimit", VBool true); ("outputDirectory", VStr "out") ].


(** [shlex.split] that also rejects a command with a quote in it, as an
    unbalanced quote is. *)
Definition words_or_error (s : string) : result (list string) :=
  if PyStr.contains "'"%char s then Raise (ValueError "No closing quotation")
  else words s.

(** An environment in which [PosixPath('out')] is a path-like object. *)
Definition env_paths (tool : World → result unit * World) : Env :=
  mkEnv "2.5.0" "/tmp/ws" 1000 words traceback tool id id id
    (λ ref, if String.eqb ref "PosixPath('out')" then Some "out" else None).

Definition env_quoting : Env :=
  mkEnv "2.5.0" "/tmp/ws" 1000 words_or_error traceback build_ok id id id (λ _, None).

(** PyInstaller options where one action converts its argument with a
    function, as [type=] allows. *)
Definition add_typed_option (p : parser) : parser :=
  p ++ [ list_to_map
           [ ("option_strings", VList [VStr "--add-data"]);
             ("dest", VStr "datas");
             ("type", VObj "<function add_data_or_binary>");
             ("container", VObj "<argparse._ArgumentGroup>") ] ].

Definition env_typed : Env :=
  mkEnv "2.5.0" "/tmp/ws" 1000 words traceback build_ok add_typed_option id id
    (λ _, None).

(** PyInstaller options where one action carries no [container]. *)
Definition add_bare_option (p : parser) : parser :=
  p ++ [ list_to_map
           [ ("option_strings", VList [VStr "--bare"]); ("dest", VStr "bare") ] ].

Definition env_bare : Env :=
  mkEnv "2.5.0" "/tmp/ws" 1000 words traceback build_ok add_bare_option id id
    (λ _, None).

(** A directory holding one file, used as source and destination at once. *)
Definition alias_tree : Fs.node :=
  Fs.Dir {[ "d" := Fs.Dir {[ "x" := Fs.File "data" ]} ]}.
Definition alias_world : World := mkWorld alias_tree [] 1000 [].



(** A destination [/a/b] inside its source [/a]. *)
Definition outer_world : World :=
  mkWorld (Fs.Dir {[ "a" := Fs.Dir (list_to_map [ ("b", Fs.Dir ∅);
                                                  ("f", Fs.File "data") ]) ]})
    [] 1000 [].

(** A callback that fails on one line, as one writing to a closed pipe
    does, and records every other line. *)
Definition breaks_at (line : string) : callback := λ s,
  if String.eqb s line then raise (OSError "[Errno 32] Broken pipe") else sink s.

End Examples.

(** * Verification *)

(** ** The monad: which computations are silent *)

Section Silent.
Context {A B : Type}.

Lemma silent_ret (a : A) : silent (ret a).
Proof. by intros w. Qed.

Lemma silent_raise (e : exn) : silent (@raise A e).
Proof. by intros w. Qed.

Lemma silent_gets (f : World → A) : silent (gets f).
Proof. by intros w. Qed.

Lemma silent_modify (f : World → World) : silent (modify f).
Proof. by intros w. Qed.

Lemma silent_bind (m : M A) (k : A → M B) :
  silent m → (∀ a, silent (k a)) → silent (bind m k).
Proof.
  intros Hm Hk w. unfold bind. specialize (Hm w).
  destruct (m w) as [[[a|e] w1] ev1]; simpl in *; subst; [|done].
  specialize (Hk a w1). by destruct (k a w1) as [[r w2] ev2]; simpl in *; subst.
Qed.

Lemma silent_try_except (m : M A) (h : exn → M A) :
  silent m → (∀ e, silent (h e)) → silent (try_except m h).
Proof.
  intros Hm Hh w. unfold try_except. specialize (Hm w).
  destruct (m w) as [[[a|e] w1] ev1]; simpl in *; subst; [done|].
  specialize (Hh e w1). by destruct (h e w1) as [[r w2] ev2]; simpl in *; subst.
Qed.

End Silent.

Lemma silent_for_each {A} (l : list A) (body : A → M unit) :
  (∀ x, silent (body x)) → silent (for_each l body).
Proof.
  intros Hb. induction l as [|x l IH]; simpl.
  - apply silent_ret.
  - apply silent_bind; [apply Hb | intros _; apply IH].
Qed.

Lemma silent_commit (o : option Fs.node) (e : exn) : silent (Os.commit o e).
Proof. destruct o; [apply silent_modify | apply silent_raise]. Qed.

(** ** The filesystem calls are silent *)

Ltac silent_prim :=
  let w := fresh "w" in
  intros w; cbv beta delta [Os.listdir Os.makedirs Os.remove Os.rmtree Os.rename Os.copy2];
  repeat case_match; try done; apply silent_commit.

Lemma silent_listdir p : silent (Os.listdir p).
Proof. silent_prim. Qed.
Lemma silent_makedirs p : silent (Os.makedirs p).
Proof. silent_prim. Qed.
Lemma silent_remove p : silent (Os.remove p).
Proof. silent_prim. Qed.
Lemma silent_rmtree p : silent (Os.rmtree p).
Proof. silent_prim. Qed.
Lemma silent_rename s d : silent (Os.rename s d).
Proof. silent_prim. Qed.
Lemma silent_copy2 s d : silent (Os.copy2 s d).
Proof. silent_prim. Qed.

Lemma silent_copytree s d : silent (Os.copytree s d).
Proof.
  intros w. unfold Os.copytree.
  destruct (Os.stat s w) as [[?|es]|]; try done.
  apply silent_bind; [apply silent_makedirs|].
  intros _ w1. repeat case_match; try done. apply silent_commit.
Qed.

Create HintDb silent discriminated.
#[local] Hint Resolve silent_ret silent_raise silent_gets silent_modify
  silent_listdir silent_makedirs silent_remove silent_rmtree silent_rename
  silent_copy2 silent_copytree silent_commit : silent.

Ltac silent_step :=
  first
    [ apply silent_bind; [|intros ?]
    | apply silent_try_except; [|intros ?]
    | apply silent_for_each; intros ?
    | match goal with |- silent (if ?b then _ else _) => destruct b end
    | solve [eauto with silent] ].

Lemma silent_move_onto s d r : silent (Os.move_onto s d r).
Proof.
  unfold Os.move_onto, Os.path_isdir, Os.destinsrc. repeat silent_step.
Qed.

Lemma silent_move s d : silent (Os.move s d).
Proof.
  unfold Os.move, Os.path_isdir, Os.samefile, Os.path_exists.
  repeat (silent_step || apply silent_move_onto).
Qed.

Lemma silent_move_entry s d x : silent (move_entry s d x).
Proof.
  unfold move_entry, Os.path_exists, Os.path_isfile.
  repeat (silent_step || apply silent_move).
Qed.

(** ** Events of the two collaborators *)

Lemma observe_silent {A} (c : callee) (m : M A) (w : World) :
  silent m →
  observe c m w = ((m w).1.1, (m w).1.2, [Enter c; Leave c (exn_of (m w).1.1)]).
Proof.
  intros Hm. unfold observe. specialize (Hm w).
  destruct (m w) as [[r w1] ev]; simpl in *. by subst.
Qed.

Lemma move_package_events (src dst : string) (w : World) :
  ∃ r w',
    __move_package src dst w =
      (r, w', [Enter (MovePackage src dst); Leave (MovePackage src dst) (exn_of r)]).
Proof.
  unfold __move_package. eexists _, _. apply observe_silent.
  unfold Os.path_exists.
  repeat (silent_step || apply silent_move_entry).
Qed.

Lemma run_pyinstaller_events (E : Env) (w : World) :
  run_pyinstaller E w =
    ((pyinstaller_main E w).1, (pyinstaller_main E w).2,
     let c := RunPyInstaller (argv w) (recursion_limit w) in
     [Enter c; Leave c (exn_of (pyinstaller_main E w).1)]).
Proof.
  unfold run_pyinstaller, observe. by destruct (pyinstaller_main E w) as [r w1].
Qed.

(** ** Every run of [package] has one of the seven shapes *)

Ltac use_shape Htv lem :=
  let H := fresh "H" in
  pose proof lem as H;
  unfold invocation_world, output_directory in H;
  unfold limit_lines, chosen_limit in H;
  rewrite Htv in H; cbn [fst snd app exn_of]; eapply H; eauto; lia.

Ltac run_tail E cmd options w v o s Htv :=
  destruct (shlex_split E cmd) as [tokens|e] eqn:Hsplit;
  [ cbn [ret modify gets set_argv argv app]; rewrite run_pyinstaller_events;
    cbn [argv recursion_limit set_argv set_recursion_limit];
    destruct (pyinstaller_main E _) as [[[]|e] w1] eqn:Hrun; cbn [fst snd exn_of];
    [ cbn [ret negb];
      match goal with |- context [__move_package ?a ?b ?c] =>
        let r := fresh "r" in let w' := fresh "w'" in let Hm := fresh "Hm" in
        destruct (move_package_events a b c) as (r & w' & Hm); rewrite Hm;
        destruct r as [[]|e]; cbn [exn_of fst snd app];
        [ use_shape Htv (run_moved E cmd options w v o s tokens)
        | use_shape Htv (run_move_failed E cmd options w v o s tokens) ]
      end
    | cbn [ret negb app]; use_shape Htv (run_tool_failed E cmd options w v o s tokens e) ]
  | cbn [raise ret negb app fst snd]; use_shape Htv (run_bad_command E cmd options w v o s e) ].

Lemma package_runs (E : Env) (cmd : string) (options : gmap string pyval) (w : World) :
  package_run E cmd options w (package E cmd options sink w).1.1
    (package E cmd options sink w).1.2 (package E cmd options sink w).2.
Proof.
  unfold package, sink.
  destruct (options !! "increaseRecursionLimit") as [v|] eqn:Hv; cycle 1.
  { unfold bind, emit, dict_getitem. rewrite Hv. cbn. apply run_missing_key; auto. }
  destruct (options !! "outputDirectory") as [o|] eqn:Ho; cycle 1.
  { unfold bind, emit, dict_getitem. rewrite Hv, Ho. cbn. apply run_missing_key; auto. }
  destruct (path_of E o) as [s|] eqn:Hs; cycle 1.
  { unfold bind, emit, dict_getitem. rewrite Hv, Ho. cbn [ret].
    unfold abspath_of. rewrite Hs. cbn.
    eapply run_bad_directory; eauto. }
  unfold bind, try_except, emit, dict_getitem, lift_result. rewrite Hv, Ho.
  cbn [ret]. unfold abspath_of. rewrite Hs.
  cbn [ret Os.path_abspath gets app].
  destruct (truthy v) eqn:Htv.
  - cbn [sys_setrecursionlimit Z.ltb Z.compare Pos.compare Pos.compare_cont modify].
    run_tail E cmd options w v o s Htv.
  - unfold sys_setrecursionlimit.
    destruct (DEFAULT_RECURSION_LIMIT E <? 1) eqn:Hlim.
    + cbn [raise fst snd app]. eapply run_bad_limit; eauto.
      unfold chosen_limit. rewrite Htv. lia.
    + cbn [modify]. run_tail E cmd options w v o s Htv.
Qed.

Lemma package_inv (E : Env) (cmd : string) (options : gmap string pyval)
    (w w' : World) (r : result bool) (evs : list event) :
  package E cmd options sink w = (r, w', evs) →
  package_run E cmd options w r w' evs.
Proof.
  intros H. pose proof (package_runs E cmd options w) as Hrun.
  by rewrite H in Hrun.
Qed.

(** ** A run of [package] with any callback that returns *)

Lemma call_eta (f : callback) (s : string) (w : World) :
  returns f → f s w = (Ok tt, after f s w, heard f s w).
Proof.
  intros Hret. specialize (Hret s w). unfold after, heard.
  destruct (f s w) as [[r w1] ev]. simpl in *. by subst.
Qed.

Lemma heard_last (E : Env) (f : callback) (s : string) (w : World) (r : result bool) :
  package_heard E f r (heard f s w).
Proof. rewrite <- (app_nil_r (heard f s w)). apply heard_line, heard_nothing. Qed.

Lemma heard_output (f : callback) (s : string) (w : World) (ev : event) :
  speaks_only f → ev ∈ heard f s w → ∃ t, ev = Output t.
Proof. intros Hso. apply Hso. Qed.

Ltac calls Hret :=
  repeat (rewrite (call_eta _ _ _ Hret); lazy beta iota zeta).
Ltac flatten := rewrite <- ?app_assoc; cbn [app]; rewrite ?app_nil_r.
Ltac lines := repeat apply heard_line; try apply heard_last.

Ltac hear_tail E cmd Hret :=
  unfold lift_result;
  destruct (shlex_split E cmd) as [tokens|e];
  [ cbn [ret modify gets]; calls Hret; rewrite run_pyinstaller_events;
    destruct (pyinstaller_main E _) as [[[]|e] w1]; cbn [fst snd exn_of ret];
    calls Hret; cbn [negb];
    [ calls Hret;
      match goal with |- context [__move_package ?a ?b ?c] =>
        let r := fresh "r" in let w' := fresh "w'" in let Hm := fresh "Hm" in
        destruct (move_package_events a b c) as (r & w' & Hm); rewrite Hm;
        destruct r as [[]|e]; cbn [exn_of fst snd ret]; calls Hret;
        cbn [fst snd]; flatten; lines;
        [ apply heard_moved | apply heard_move_failed ]
      end
    | calls Hret; cbn [fst snd]; flatten; lines; apply heard_tool_failed ]
  | cbn [raise]; calls Hret; cbn [negb]; calls Hret; cbn [fst snd]; flatten; lines ].

Lemma package_hears (E : Env) (cmd : string) (options : gmap string pyval)
    (f : callback) (w : World) :
  returns f →
  package_heard E f (package E cmd options f w).1.1 (package E cmd options f w).2.
Proof.
  intros Hret. unfold package, bind, try_except. calls Hret.
  unfold dict_getitem.
  destruct (options !! "increaseRecursionLimit") as [v|]; cycle 1.
  { cbn [raise fst snd]. flatten. lines. }
  cbn [ret].
  destruct (options !! "outputDirectory") as [o|]; cycle 1.
  { cbn [raise fst snd]. flatten. lines. }
  cbn [ret]. unfold abspath_of.
  destruct (path_of E o) as [s|]; cycle 1.
  { cbn [raise fst snd]. flatten. lines. }
  cbn [ret Os.path_abspath gets app].
  destruct (truthy v).
  - cbn [sys_setrecursionlimit Z.ltb Z.compare Pos.compare Pos.compare_cont modify].
    calls Hret. hear_tail E cmd Hret.
  - unfold sys_setrecursionlimit.
    destruct (DEFAULT_RECURSION_LIMIT E <? 1).
    + cbn [raise fst snd]. flatten. lines.
    + cbn [modify]. hear_tail E cmd Hret.
Qed.

(** ** The orchestrator *)

(** Membership in an explicit list of events. *)
Ltac split_mem H :=
  repeat (apply elem_of_cons in H as [H|H]; [try discriminate H|]);
  try (apply elem_of_nil in H; destruct H).

Ltac find_mem :=
  repeat first [ apply list_elem_of_here | apply list_elem_of_further ].

Ltac shapes H :=
  apply package_inv in H; inversion H; subst; clear H;
  unfold prelude, limit_lines, executing_lines, failure_lines, chosen_limit in *;
  repeat match goal with
         | H : context [if truthy ?v then _ else _] |- _ => destruct (truthy v) eqn:?
         | |- context [if truthy ?v then _ else _] => destruct (truthy v) eqn:?
         end;
  cbn [app] in *.

(** Membership in a list of events made of lines heard and explicit
    events. *)
Ltac where_in Hso H :=
  repeat first
    [ apply elem_of_nil in H; destruct H
    | apply elem_of_cons in H as [H|H]; [try discriminate H|]
    | apply elem_of_app in H as [H|H];
      [try (apply (heard_output _ _ _ _ Hso) in H as [? H]; discriminate H)|]
    | apply (heard_output _ _ _ _ Hso) in H as [? H]; discriminate H ].

(** C1, for the callbacks it holds for.  With any callback that returns
    from every call and emits lines only: when the PyInstaller invocation
    raises, [package] returns [False], the callback is called on the
    formatted traceback of that exception after the invocation was left, and
    [__move_package] is not entered. *)
Theorem package_tool_failure (E : Env) (cmd : string) (options : gmap string pyval)
    (f : callback) (w w' : World) (r : result bool) (evs : list event)
    (a : list string) (l : Z) (e : exn) :
  returns f → speaks_only f →
  package E cmd options f w = (r, w', evs) →
  Leave (RunPyInstaller a l) (Some e) ∈ evs →
  r = Ok false
  ∧ (∃ before w0 rest,
       evs = before ++ heard f (format_exc E e) w0 ++ rest
       ∧ Leave (RunPyInstaller a l) (Some e) ∈ before)
  ∧ ∀ src dst, Enter (MovePackage src dst) ∉ evs.
Proof.
  intros Hret Hso Hrun Hraised.
  pose proof (package_hears E cmd options f w Hret) as Hheard.
  rewrite Hrun in Hheard. cbn [fst snd] in Hheard. clear Hrun.
  induction Hheard as [s w0 r evs _ IH| |a0 l0 e0 w1 w2 w3 w4 c| |].
  - apply elem_of_app in Hraised as [Hin|Hin].
    { apply (heard_output _ _ _ _ Hso) in Hin as [t Ht]. discriminate Ht. }
    destruct (IH Hin) as (-> & (before & w2 & rest & -> & Hbefore) & Hnot).
    split; [done|]. split.
    + exists (heard f s w0 ++ before), w2, rest. split; [by rewrite <- app_assoc|].
      apply elem_of_app. by right.
    + intros src dst Hm. apply elem_of_app in Hm as [Hm|Hm]; [|by eapply Hnot].
      apply (heard_output _ _ _ _ Hso) in Hm as [t Ht]. discriminate Ht.
  - where_in Hso Hraised.
  - subst c. where_in Hso Hraised. injection Hraised as -> -> ->.
    split; [done|]. split.
    + eexists (_ :: _ :: heard f _ w1), w2, _. split; [reflexivity|find_mem].
    + intros src dst Hm. where_in Hso Hm.
  - where_in Hso Hraised.
  - where_in Hso Hraised.
Qed.

(** C2, for the callbacks it holds for.  With any callback that returns
    from every call and emits lines only: when the relocation raises, which
    it can only after the PyInstaller invocation returned, [package] still
    returns [True] and the callback is called on the formatted traceback of
    the relocation's exception after the mover was left. *)
Theorem package_move_failure (E : Env) (cmd : string) (options : gmap string pyval)
    (f : callback) (w w' : World) (r : result bool) (evs : list event)
    (src dst : string) (e : exn) :
  returns f → speaks_only f →
  package E cmd options f w = (r, w', evs) →
  Leave (MovePackage src dst) (Some e) ∈ evs →
  r = Ok true
  ∧ ∃ before w0 rest,
      evs = before ++ heard f (format_exc E e) w0 ++ rest
      ∧ Leave (MovePackage src dst) (Some e) ∈ before
      ∧ ∃ a l, Leave (RunPyInstaller a l) None ∈ before.
Proof.
  intros Hret Hso Hrun Hmove.
  pose proof (package_hears E cmd options f w Hret) as Hheard.
  rewrite Hrun in Hheard. cbn [fst snd] in Hheard. clear Hrun.
  induction Hheard as [s w0 r evs _ IH| | | |a0 l0 src0 dst0 e0 w1 w2 w3 w4 s c m].
  - apply elem_of_app in Hmove as [Hin|Hin].
    { apply (heard_output _ _ _ _ Hso) in Hin as [t Ht]. discriminate Ht. }
    destruct (IH Hin) as (-> & before & w2 & rest & -> & Hbefore & a & l & Htool).
    split; [done|].
    exists (heard f s w0 ++ before), w2, rest. split; [by rewrite <- app_assoc|].
    split; [apply elem_of_app; by right|].
    exists a, l. apply elem_of_app. by right.
  - where_in Hso Hmove.
  - where_in Hso Hmove.
  - where_in Hso Hmove.
  - subst c m. where_in Hso Hmove. injection Hmove as -> -> ->.
    split; [done|].
    eexists (_ :: _ :: heard f _ w1 ++ heard f _ w2 ++ _ :: _ :: heard f _ w3), w4, [].
    split; [|split].
    + cbn [app]. rewrite app_nil_r. do 2 f_equal. rewrite <- !app_assoc. done.
    + do 2 apply list_elem_of_further. apply elem_of_app. right.
      apply elem_of_app. right. find_mem.
    + eexists _, _. find_mem.
Qed.

(** C4.  Whenever PyInstaller is entered, [sys.argv] is the [shlex] tokens of
    the command followed by the six forced override tokens, so the overrides
    come after anything the user wrote. *)
Theorem package_argv (E : Env) (cmd : string) (options : gmap string pyval)
    (w w' : World) (r : result bool) (evs : list event) (a : list string) (l : Z) :
  package E cmd options sink w = (r, w', evs) →
  Enter (RunPyInstaller a l) ∈ evs →
  ∃ tokens,
    shlex_split E cmd = Ok tokens
    ∧ a = tokens ++
          [ "--distpath"; PyStr.path_join (temporary_directory E) "application";
            "--workpath"; PyStr.path_join (temporary_directory E) "build";
            "--specpath"; temporary_directory E ].
Proof.
  intros Hrun Hin. shapes Hrun; split_mem Hin.
  all: injection Hin as -> ->; by exists tokens.
Qed.

(** C6.  Whenever PyInstaller is entered, the recursion limit is 5000 if the
    [increaseRecursionLimit] setting is true and the default constant if it
    is false. *)
Theorem package_recursion_limit (E : Env) (cmd : string) (options : gmap string pyval)
    (w w' : World) (r : result bool) (evs : list event) (v : pyval)
    (a : list string) (l : Z) :
  package E cmd options sink w = (r, w', evs) →
  options !! "increaseRecursionLimit" = Some v →
  Enter (RunPyInstaller a l) ∈ evs →
  l = if truthy v then 5000 else DEFAULT_RECURSION_LIMIT E.
Proof.
  intros Hrun Hv Hin. shapes Hrun; split_mem Hin.
  all: injection Hin as -> ->; congruence.
Qed.

(** C10.  A settings mapping without [increaseRecursionLimit] or without
    [outputDirectory] makes [package] raise [KeyError] after the banner and
    command lines: the world is untouched and PyInstaller is not entered. *)
Theorem package_missing_setting (E : Env) (cmd : string)
    (options : gmap string pyval) (w : World) :
  options !! "increaseRecursionLimit" = None ∨ options !! "outputDirectory" = None →
  ∃ key,
    (key = "increaseRecursionLimit" ∨ key = "outputDirectory")
    ∧ options !! key = None
    ∧ package E cmd options sink w =
        (Raise (KeyError key), w,
         [ Output ("Running auto-py-to-exe v" +:+ version E);
           Output ("Building directory: " +:+ temporary_directory E +:+ PyStr.nl);
           Output ("Provided command: " +:+ cmd +:+ PyStr.nl) ]).
Proof.
  intros H.
  unfold package, bind, sink, emit, dict_getitem.
  destruct (options !! "increaseRecursionLimit") as [v|] eqn:Hv.
  - destruct H as [H|H]; [discriminate|].
    exists "outputDirectory". rewrite H. cbn. auto.
  - exists "increaseRecursionLimit". cbn. auto.
Qed.

(** ** The log relay *)

Lemma len_bytes (s : string) :
  Forall (λ c, PyStr.is_continuation c = false) (String.list_ascii_of_string s) →
  PyStr.len s = Z.of_nat (String.length s).
Proof.
  induction s as [|c s IH]; [done|].
  cbn [String.list_ascii_of_string PyStr.len String.length].
  intros [Hc Hs]%Forall_cons. rewrite Hc, (IH Hs). lia.
Qed.

Example len_counts_code_points :
  PyStr.len "naïve" = 5 ∧ String.length "naïve" = 6%nat.
Proof. by vm_compute. Qed.

(** C7.  [write(s)] runs the wrapped output function once on [s] and returns
    [len(s)], the number of code points of [s]: the world and the events of
    the call are those of that one call; with the recording callback the
    events are exactly [Output s]. *)
Theorem write_forwards (f : callback) (s : string) (w : World) :
  write (mkStream f) s w =
    (match (f s w).1.1 with
     | Ok _ => Ok (PyStr.len s)
     | Raise e => Raise e
     end, (f s w).1.2, (f s w).2)
  ∧ write (mkStream sink) s w = (Ok (PyStr.len s), w, [Output s]).
Proof.
  split; [|done].
  unfold write, bind. simpl.
  destruct (f s w) as [[[[]|e] w1] ev]; simpl; [|done]. by rewrite app_nil_r.
Qed.

(** ** Text *)

Module PyStrFacts.
Import PyStr.

Lemma split_no_sep c s : contains c s = false → split c s = [s].
Proof.
  induction s as [|a s IH]; simpl; [done|].
  intros H. apply orb_false_elim in H as [Ha Hs]. rewrite Ha, (IH Hs). done.
Qed.

Lemma split_nonempty c s : split c s ≠ [].
Proof.
  destruct s as [|a s]; simpl; [done|].
  destruct (Ascii.eqb a c); [done|]. by destruct (split c s).
Qed.












Lemma split_with_sep c s :
  contains c s = true → ∃ h x t, split c s = h :: x :: t.
Proof.
  induction s as [|a s IH]; simpl; [done|].
  destruct (Ascii.eqb a c) eqn:Ha; simpl.
  - intros _. destruct (contains c s) eqn:Hs.
    + destruct (IH eq_refl) as (h & x & t & ->). eauto.
    + rewrite (split_no_sep _ _ Hs). eauto.
  - intros Hs. destruct (IH Hs) as (h & x & t & ->). eauto.
Qed.

Lemma stem_with_dot name :
  contains dot name = true →
  join "." (but_last (split dot name)) = strip_last_extension name.
Proof.
  induction name as [|a s IH]; [done|].
  cbn [contains split strip_last_extension].
  destruct (Ascii.eqb a dot) eqn:Ha; cbn [orb].
  - intros _. destruct (contains dot s) eqn:Hs; cbn [negb andb].
    + rewrite <- (IH eq_refl). apply Ascii.eqb_eq in Ha as ->.
      destruct (split_with_sep _ _ Hs) as (h & x & t & ->). done.
    + by rewrite (split_no_sep _ _ Hs).
  - intros Hs. rewrite andb_false_r. rewrite <- (IH Hs).
    destruct (split_with_sep _ _ Hs) as (h & x & t & ->).
    cbn. by destruct t.
Qed.

End PyStrFacts.

(** ** The filesystem tree *)

Module FsFacts.
Import Fs PyStr PyStrFacts.







Lemma update_None p f n :
  is_dir (get p n) = false → update p f n = None.
Proof.
  revert n. induction p as [|c p IH]; intros n H; cbn [get update is_dir] in *.
  - by destruct n.
  - destruct n as [d|ds]; [done|]. destruct (ds !! c) as [m|]; [|done].
    by rewrite (IH m H).
Qed.




(** Resolution of a path joined with an entry name. *)



End FsFacts.

(** ** The collision checker *)

Lemma elem_of_listing (es : gmap string Fs.node) (x : string) :
  x ∈ (map_to_list es).*1 ↔ is_Some (es !! x).
Proof.
  rewrite list_elem_of_fmap. split.
  - intros [[k n] [-> Hin]]. apply elem_of_map_to_list in Hin. by exists n.
  - intros [n Hn]. exists (x, n). split; [done|]. by apply elem_of_map_to_list.
Qed.

Lemma collision_absent file_path one_file output_folder w :
  Os.stat output_folder w = None →
  will_packaging_overwrite_existing file_path one_file output_folder w = (Ok false, w, []).
Proof.
  intros H. unfold will_packaging_overwrite_existing, bind, Os.path_exists, gets.
  by rewrite H.
Qed.

Lemma collision_directory file_path one_file output_folder w es :
  Os.stat output_folder w = Some (Fs.Dir es) →
  will_packaging_overwrite_existing file_path one_file output_folder w =
    (Ok (bool_decide (is_Some (es !! artifact_name file_path one_file))), w, []).
Proof.
  intros H. unfold will_packaging_overwrite_existing, bind, Os.path_exists, gets, Os.listdir.
  rewrite H. cbn [Fs.exists_ negb]. unfold artifact_name.
  destruct one_file; rewrite H; cbn [app].
  all: rewrite (bool_decide_ext _ _ (elem_of_listing es _)).
  all: by case_bool_decide.
Qed.

Lemma collision_not_a_directory file_path one_file output_folder w d :
  Os.stat output_folder w = Some (Fs.File d) →
  will_packaging_overwrite_existing file_path one_file output_folder w =
    (Raise (NotADirectoryError output_folder), w, []).
Proof.
  intros H. unfold will_packaging_overwrite_existing, bind, Os.path_exists, gets, Os.listdir.
  rewrite H. cbn [Fs.exists_ negb]. by destruct one_file; rewrite H.
Qed.


Lemma walk_lexical (root : Fs.node) (comps : list string) (acc q : Fs.path) :
  Fs.walk root comps acc = Some q → q = fold_left Fs.step comps acc.
Proof.
  revert acc. induction comps as [|c comps IH]; intros acc; cbn [Fs.walk fold_left].
  - by intros [= ->].
  - destruct (Fs.get acc root) as [[d|es]|]; try done. apply IH.
Qed.

Lemma locate_resolve (p : string) (w : World) (q : Fs.path) :
  Os.locate p w = Some q → Fs.resolve (cwd w) p = Some q.
Proof.
  unfold Os.locate, Fs.resolve. destruct (String.eqb p ""); [done|].
  intros Hwalk. by rewrite <- (walk_lexical _ _ _ _ Hwalk).
Qed.

Lemma found_stat (p : string) (w : World) (x : Fs.node) :
  Os.found p w = Some x → Os.stat p w = Some x.
Proof.
  unfold Os.found, Os.stat. destruct (Os.locate p w) as [q|] eqn:Hq; [|done].
  by rewrite (locate_resolve _ _ _ Hq).
Qed.

Lemma artifact_name_with_extension (file_path : string) (one_file : bool) :
  PyStr.contains PyStr.dot (PyStr.basename file_path) = true →
  artifact_name file_path one_file = spec_artifact_name file_path one_file.
Proof.
  intros H. unfold artifact_name, spec_artifact_name.
  by rewrite (PyStrFacts.stem_with_dot _ H).
Qed.

Lemma artifact_name_without_extension (file_path : string) (one_file : bool) :
  PyStr.contains PyStr.dot (PyStr.basename file_path) = false →
  artifact_name file_path one_file = (if one_file then ".exe" else "").
Proof.
  intros H. unfold artifact_name.
  by rewrite (PyStrFacts.split_no_sep _ _ H).
Qed.

(** C3, at the input where the code departs from the specification.  The
    source [/src/script] has no extension, the destination [/home/out] exists
    and lists [script], the name the specification derives; the check
    answers [False]. *)
Theorem collision_check_misses_extensionless :
  will_packaging_overwrite_existing "/src/script" false "/home/out" Examples.world
    = (Ok false, Examples.world, [])
  ∧ spec_artifact_name "/src/script" false = "script"
  ∧ ∃ names, Os.listdir "/home/out" Examples.world = (Ok names, Examples.world, [])
             ∧ "script" ∈ names.
Proof.
  split; [by vm_compute|]. split; [by vm_compute|].
  eexists. split; [by vm_compute|]. find_mem.
Qed.

(** C9.  For a source whose base name has no dot the derived name is the
    empty string: in directory mode the check answers [False] whatever the
    existing destination directory lists, and in single-file mode it looks
    for the name [.exe].  The destination is one the kernel finds: every
    component of its path, [..] included, is taken from a directory. *)
Theorem collision_check_extensionless (file_path output_folder : string)
    (w : World) (es : gmap string Fs.node) :
  PyStr.contains PyStr.dot (PyStr.basename file_path) = false →
  Os.found output_folder w = Some (Fs.Dir es) →
  es !! "" = None →
  artifact_name file_path false = ""
  ∧ will_packaging_overwrite_existing file_path false output_folder w
      = (Ok false, w, [])
  ∧ will_packaging_overwrite_existing file_path true output_folder w
      = (Ok (bool_decide (is_Some (es !! ".exe"))), w, []).
Proof.
  intros Hdot Hdir%found_stat Hempty.
  rewrite !(collision_directory _ _ _ _ _ Hdir).
  rewrite !artifact_name_without_extension by done.
  split; [done|]. split; [|done].
  rewrite Hempty. rewrite bool_decide_eq_false_2; [done|]. by intros [? ?].
Qed.

Lemma collision_check_extensionless_witness :
  artifact_name "/src/script" false = ""
  ∧ will_packaging_overwrite_existing "/src/script" false "/home/out" Examples.world
      = (Ok false, Examples.world, [])
  ∧ will_packaging_overwrite_existing "/src/script" true "/home/out" Examples.world
      = (Ok false, Examples.world, []).
Proof.
  refine (collision_check_extensionless "/src/script" "/home/out" Examples.world
            Examples.earlier_output _ _ _).
  - vm_compute. reflexivity.
  - vm_compute. reflexivity.
  - vm_compute. reflexivity.
Defined.

(** What the kernel finds and what it does not: a path through a missing
    directory or with a separator after a file finds nothing, whatever its
    lexical normal form names. *)
Example found_walks_the_tree :
  Os.locate "/home/none/../out" Examples.world = None
  ∧ Os.locate "/home/new" Examples.world = Some ["home"; "new"]
  ∧ Os.found "/home/none/../out" Examples.world = None
  ∧ Os.stat "/home/none/../out" Examples.world = Some (Fs.Dir Examples.earlier_output)
  ∧ Os.found "/home/out/app.exe/" Examples.world = None
  ∧ Os.found "/home/out/../out/app.exe" Examples.world = Some (Fs.File "old")
  ∧ Os.found "out/" Examples.world = Some (Fs.Dir Examples.earlier_output).
Proof. repeat split; by vm_compute. Qed.

(** [os.path.abspath]: relative to the working directory, normalised, with
    exactly two leading slashes kept. *)
Example abspath_normalises :
  Fs.abspath ["home"] "out" = "/home/out"
  ∧ Fs.abspath ["home"] "//home/out" = "//home/out"
  ∧ Fs.abspath ["home"] "///home/../out/" = "/out"
  ∧ Fs.abspath ["home"] "" = "/home".
Proof. repeat split; by vm_compute. Qed.

(** ** The option catalog *)

Lemma clean_actions_ok (actions options rs : list (gmap string pyval)) :
  clean_actions actions options = Ok rs →
  rs = options ++ (delete "container" <$> actions)
  ∧ Forall (λ a, is_Some (a !! "container")) actions.
Proof.
  revert options. induction actions as [|a actions IH]; intros options; simpl.
  - intros [= <-]. by rewrite app_nil_r.
  - unfold del_attr. destruct (a !! "container") as [c|] eqn:Hc; [|done].
    intros H. apply IH in H as [-> Hall]. split.
    + by rewrite <- app_assoc.
    + constructor; eauto.
Qed.

Lemma clean_actions_raise (actions options : list (gmap string pyval)) :
  Exists (λ a, a !! "container" = None) actions →
  clean_actions actions options = Raise (AttributeError "container").
Proof.
  revert options. induction actions as [|a actions IH]; intros options H; simpl.
  - by apply Exists_nil in H.
  - unfold del_attr. destruct (a !! "container") as [c|] eqn:Hc; [|done].
    apply IH. apply Exists_cons in H as [H|H]; [congruence|done].
Qed.

Lemma clean_actions_all (actions options : list (gmap string pyval)) :
  Forall (λ a, is_Some (a !! "container")) actions →
  clean_actions actions options = Ok (options ++ (delete "container" <$> actions)).
Proof.
  revert options. induction actions as [|a actions IH]; intros options H; simpl.
  - by rewrite app_nil_r.
  - apply Forall_cons in H as [[c Hc] H]. unfold del_attr. rewrite Hc.
    rewrite (IH _ H). by rewrite <- app_assoc.
Qed.

(** The parsers of the two example environments, action by action. *)
Ltac example_parser :=
  lazy beta iota zeta delta
    [__get_pyinstaller_argument_parser ArgumentParser add_positional
     Examples.env Examples.env_typed Examples.add_typed_option
     add_makespec_options add_build_options add_log_options app id].

Ltac has_container := eexists; vm_compute; reflexivity.

(** C8, as the code has it.  Every record returned is the attribute mapping
    of one parser action with its [container] deleted: it has no [container]
    entry, and it is plain data whenever the action's other attribute values
    are. *)
Theorem get_pyinstaller_options_records (E : Env) (rs : list (gmap string pyval)) :
  get_pyinstaller_options E = Ok rs →
  rs = delete "container" <$> __get_pyinstaller_argument_parser E
  ∧ Forall (λ r, r !! "container" = None) rs
  ∧ (Forall (λ a, ∀ k v, a !! k = Some v → k ≠ "container" → plain v = true)
       (__get_pyinstaller_argument_parser E) →
     Forall plain_record rs).
Proof.
  unfold get_pyinstaller_options. intros H.
  apply clean_actions_ok in H as [-> _]. simpl. split; [done|]. split.
  - apply Forall_fmap, Forall_forall. intros a _. apply lookup_delete_eq.
  - intros Hplain. apply Forall_fmap. eapply Forall_impl; [exact Hplain|].
    intros a Ha k v Hkv. simpl in *.
    apply lookup_delete_Some in Hkv as [Hne Hkv]. eauto.
Qed.

Lemma get_pyinstaller_options_records_witness :
  let rs := delete "container" <$>
              __get_pyinstaller_argument_parser (Examples.env Examples.build_ok) in
  rs = delete "container" <$>
         __get_pyinstaller_argument_parser (Examples.env Examples.build_ok)
  ∧ Forall (λ r, r !! "container" = None) rs
  ∧ (Forall (λ a, ∀ k v, a !! k = Some v → k ≠ "container" → plain v = true)
       (__get_pyinstaller_argument_parser (Examples.env Examples.build_ok)) →
     Forall plain_record rs).
Proof.
  intros rs.
  apply (get_pyinstaller_options_records (Examples.env Examples.build_ok) rs).
  unfold get_pyinstaller_options. apply (clean_actions_all _ []).
  example_parser. repeat (apply Forall_cons; split; [has_container|]).
  apply Forall_nil_2.
Defined.

(** C8 in the specification's wording fails: an action whose [type] is a
    function yields a record that is not plain data. *)
Lemma get_pyinstaller_options_not_plain :
  ¬ ∀ E rs, get_pyinstaller_options E = Ok rs → Forall plain_record rs.
Proof.
  intros H.
  assert (get_pyinstaller_options Examples.env_typed =
            Ok (delete "container" <$>
                  __get_pyinstaller_argument_parser Examples.env_typed)) as Hrs.
  { apply (clean_actions_all _ []). example_parser.
    repeat (apply Forall_cons; split; [has_container|]). apply Forall_nil_2. }
  apply H in Hrs. revert Hrs. example_parser. rewrite !fmap_cons. intros Hall.
  apply Forall_cons in Hall as [_ Hall]. apply Forall_cons in Hall as [Hbad _].
  specialize (Hbad "type" (VObj "<function add_data_or_binary>")).
  assert (plain (VObj "<function add_data_or_binary>") = true) as Habs; [|done].
  apply Hbad. vm_compute. reflexivity.
Qed.

(** ** The artifact mover *)

Module MoveFacts.
Import Fs FsFacts PyStrFacts.



















End MoveFacts.




(** The other two ways the destination can meet the source.  With one
    directory as source and destination the loop deletes each entry and
    [shutil.move] raises; with the destination an entry of the source that
    entry is moved onto itself and stays in the source. *)
Lemma move_package_onto_itself :
  (__move_package "/d" "/d" Examples.alias_world).1.1 = Raise (FileNotFoundError "/d/x")
  ∧ ¬ moved_all "/d" "/d" Examples.alias_world.
Proof.
  split; [by vm_compute|]. intros H.
  destruct (H {[ "x" := Fs.File "data" ]}) as [Hret _]; [vm_compute; reflexivity|].
  vm_compute in Hret. discriminate Hret.
Qed.

Lemma move_package_into_own_entry :
  (__move_package "/a" "/a/b" Examples.outer_world).1.1 = Ok tt
  ∧ Os.stat "/a/b" (__move_package "/a" "/a/b" Examples.outer_world).1.2
      = Some (Fs.Dir {[ "f" := Fs.File "data" ]})
  ∧ ¬ moved_all "/a" "/a/b" Examples.outer_world.
Proof.
  split; [by vm_compute|]. split; [by vm_compute|]. intros H.
  destruct (H (list_to_map [ ("b", Fs.Dir ∅); ("f", Fs.File "data") ]))
    as [_ Harr]; [vm_compute; reflexivity|].
  destruct (Harr "b" (Fs.Dir ∅)) as [_ Hgone]; [by vm_compute|].
  vm_compute in Hgone. discriminate Hgone.
Qed.

(** ** The orchestrator on the worked data *)

Lemma run_eta {A} (run : result A * World * list event) :
  run = (run.1.1, run.1.2, run.2).
Proof. by destruct run as [[? ?] ?]. Qed.

Lemma package_tool_failure_witness :
  let run := package (Examples.env Examples.build_fails) "pyinstaller app.py"
               Examples.settings sink Examples.world in
  run.1.1 = Ok false
  ∧ (∃ before w0 rest,
       run.2 = before ++ heard sink (Examples.traceback (SystemExit 1)) w0 ++ rest
       ∧ Leave (RunPyInstaller
                  [ "pyinstaller"; "app.py"; "--distpath"; "/tmp/ws/application";
                    "--workpath"; "/tmp/ws/build"; "--specpath"; "/tmp/ws" ] 5000)
           (Some (SystemExit 1)) ∈ before)
  ∧ ∀ src dst, Enter (MovePackage src dst) ∉ run.2.
Proof.
  intros run.
  apply (package_tool_failure (Examples.env Examples.build_fails)
           "pyinstaller app.py" Examples.settings sink Examples.world
           run.1.2 run.1.1 run.2 _ _ (SystemExit 1)).
  - by intros s w.
  - intros s w ev Hin. apply list_elem_of_singleton in Hin. by exists s.
  - apply run_eta.
  - vm_compute. find_mem.
Defined.

(** C1 in the specification's wording fails: a callback that raises on the
    first line of the handler makes [package] raise after the failed
    invocation; it neither returns [False] nor hands over the traceback. *)
Lemma package_tool_failure_raising_callback :
  let run := package (Examples.env Examples.build_fails) "pyinstaller app.py"
               Examples.settings
               (Examples.breaks_at ("An error occurred, traceback follows:" +:+ PyStr.nl))
               Examples.world in
  Leave (RunPyInstaller
           [ "pyinstaller"; "app.py"; "--distpath"; "/tmp/ws/application";
             "--workpath"; "/tmp/ws/build"; "--specpath"; "/tmp/ws" ] 5000)
    (Some (SystemExit 1)) ∈ run.2
  ∧ run.1.1 = Raise (OSError "[Errno 32] Broken pipe")
  ∧ Output (Examples.traceback (SystemExit 1)) ∉ run.2.
Proof.
  vm_compute. split; [find_mem|]. split; [done|].
  intros Hin. split_mem Hin.
Qed.

Lemma package_move_failure_witness :
  let run := package (Examples.env Examples.build_nothing) "pyinstaller app.py"
               Examples.settings sink Examples.world in
  run.1.1 = Ok true
  ∧ ∃ before w0 rest,
      run.2 = before
              ++ heard sink (Examples.traceback (FileNotFoundError "/tmp/ws/application")) w0
              ++ rest
      ∧ Leave (MovePackage "/tmp/ws/application" "/home/out")
          (Some (FileNotFoundError "/tmp/ws/application")) ∈ before
      ∧ ∃ a l, Leave (RunPyInstaller a l) None ∈ before.
Proof.
  intros run.
  apply (package_move_failure (Examples.env Examples.build_nothing)
           "pyinstaller app.py" Examples.settings sink Examples.world
           run.1.2 run.1.1 run.2).
  - by intros s w.
  - intros s w ev Hin. apply list_elem_of_singleton in Hin. by exists s.
  - apply run_eta.
  - vm_compute. find_mem.
Defined.

(** C2 in the specification's wording fails: a callback that raises on the
    first line of the relocation handler makes [package] raise after the
    failed relocation; it neither returns [True] nor hands over the
    traceback. *)
Lemma package_move_failure_raising_callback :
  let run := package (Examples.env Examples.build_nothing) "pyinstaller app.py"
               Examples.settings
               (Examples.breaks_at ("Failed to move project, traceback follows:" +:+ PyStr.nl))
               Examples.world in
  Leave (RunPyInstaller
           [ "pyinstaller"; "app.py"; "--distpath"; "/tmp/ws/application";
             "--workpath"; "/tmp/ws/build"; "--specpath"; "/tmp/ws" ] 5000)
    None ∈ run.2
  ∧ Leave (MovePackage "/tmp/ws/application" "/home/out")
      (Some (FileNotFoundError "/tmp/ws/application")) ∈ run.2
  ∧ run.1.1 = Raise (OSError "[Errno 32] Broken pipe")
  ∧ Output (Examples.traceback (FileNotFoundError "/tmp/ws/application")) ∉ run.2.
Proof.
  vm_compute. split; [find_mem|]. split; [find_mem|]. split; [done|].
  intros Hin. split_mem Hin.
Qed.

Lemma package_argv_witness :
  ∃ tokens,
    Examples.words "pyinstaller -y app.py" = Ok tokens
    ∧ [ "pyinstaller"; "-y"; "app.py"; "--distpath"; "/tmp/ws/application";
        "--workpath"; "/tmp/ws/build"; "--specpath"; "/tmp/ws" ] =
      tokens ++
        [ "--distpath"; PyStr.path_join "/tmp/ws" "application";
          "--workpath"; PyStr.path_join "/tmp/ws" "build";
          "--specpath"; "/tmp/ws" ].
Proof.
  pose (run := package (Examples.env Examples.build_ok) "pyinstaller -y app.py"
                 Examples.settings sink Examples.world).
  eapply (package_argv (Examples.env Examples.build_ok) "pyinstaller -y app.py"
            Examples.settings Examples.world run.1.2 run.1.1 run.2 _ 5000).
  - apply run_eta.
  - vm_compute. find_mem.
Defined.

Lemma package_recursion_limit_witness :
  5000 = if truthy (VBool true) then 5000 else 1000.
Proof.
  pose (run := package (Examples.env Examples.build_ok) "pyinstaller -y app.py"
                 Examples.settings sink Examples.world).
  eapply (package_recursion_limit (Examples.env Examples.build_ok)
            "pyinstaller -y app.py" Examples.settings Examples.world
            run.1.2 run.1.1 run.2 (VBool true) _ 5000).
  - apply run_eta.
  - vm_compute. reflexivity.
  - vm_compute. find_mem.
Defined.

Lemma package_missing_setting_witness :
  ∃ key,
    (key = "increaseRecursionLimit" ∨ key = "outputDirectory")
    ∧ (∅ : gmap string pyval) !! key = None
    ∧ package (Examples.env Examples.build_ok) "pyinstaller app.py" ∅ sink
        Examples.world =
        (Raise (KeyError key), Examples.world,
         [ Output ("Running auto-py-to-exe v" +:+ "2.5.0");
           Output ("Building directory: " +:+ "/tmp/ws" +:+ PyStr.nl);
           Output ("Provided command: " +:+ "pyinstaller app.py" +:+ PyStr.nl) ]).
Proof.
  apply (package_missing_setting (Examples.env Examples.build_ok)
           "pyinstaller app.py" ∅ Examples.world).
  left. reflexivity.
Defined.

(** * Further properties of the module *)

(** ** The collision checker *)

Lemma split_parts_free c s : Forall (λ x, PyStr.contains c x = false) (PyStr.split c s).
Proof.
  induction s as [|a s IH]; simpl.
  - by constructor.
  - destruct (Ascii.eqb a c) eqn:Ha.
    + by constructor.
    + destruct (PyStr.split c s) as [|h t]; [repeat constructor; simpl; by rewrite Ha|].
      apply Forall_cons in IH as [Hh Ht]. constructor; [|done].
      simpl. by rewrite Ha, Hh.
Qed.

Lemma join_split c s : PyStr.join (String c "") (PyStr.split c s) = s.
Proof.
  induction s as [|a s IH]; [done|]. simpl.
  destruct (Ascii.eqb a c) eqn:Ha.
  - apply Ascii.eqb_eq in Ha as ->. unfold PyStr.join in *. cbn [String.concat].
    pose proof (PyStrFacts.split_nonempty c s) as Hne.
    destruct (PyStr.split c s) as [|h t]; [done|]. by rewrite IH.
  - unfold PyStr.join in *.
    destruct (PyStr.split c s) as [|h t]; [by rewrite <- IH|].
    rewrite <- IH. cbn [String.concat]. by destruct t.
Qed.

Lemma append_assoc (a b c : string) : (a +:+ b) +:+ c = a +:+ (b +:+ c).
Proof.
  induction a as [|x a IH]; [done|].
  change (String x ((a +:+ b) +:+ c) = String x (a +:+ (b +:+ c))). by rewrite IH.
Qed.

Lemma join_snoc sep (l : list string) (x : string) :
  l ≠ [] → PyStr.join sep (l ++ [x]) = PyStr.join sep l +:+ sep +:+ x.
Proof.
  unfold PyStr.join. induction l as [|a l IH]; [done|]. intros _.
  destruct l as [|b l]; [done|].
  change (a +:+ sep +:+ String.concat sep ((b :: l) ++ [x]) =
          (a +:+ sep +:+ String.concat sep (b :: l)) +:+ sep +:+ x).
  rewrite IH by done. by rewrite !append_assoc.
Qed.

(** X1.  The check only reads: whatever it answers or raises, the world is
    the one it was called in and no event is emitted. *)
Theorem collision_check_read_only (file_path output_folder : string)
    (one_file : bool) (w : World) :
  (will_packaging_overwrite_existing file_path one_file output_folder w).1.2 = w
  ∧ (will_packaging_overwrite_existing file_path one_file output_folder w).2 = [].
Proof.
  destruct (Os.stat output_folder w) as [[d|es]|] eqn:Hstat.
  - by rewrite (collision_not_a_directory _ _ _ _ _ Hstat).
  - by rewrite (collision_directory _ _ _ _ _ Hstat).
  - by rewrite (collision_absent _ _ _ _ Hstat).
Qed.

(** X2.  When the output folder does not exist the check answers [False],
    whatever the file and the mode. *)
Theorem collision_check_absent (file_path output_folder : string)
    (one_file : bool) (w : World) :
  Os.stat output_folder w = None →
  will_packaging_overwrite_existing file_path one_file output_folder w
    = (Ok false, w, []).
Proof. apply collision_absent. Qed.

Lemma collision_check_absent_witness :
  will_packaging_overwrite_existing "/src/app.py" true "/home/none" Examples.world
    = (Ok false, Examples.world, []).
Proof.
  apply (collision_check_absent "/src/app.py" "/home/none" true Examples.world).
  vm_compute. reflexivity.
Defined.

(** X3.  For a source whose base name has a dot and an output folder that
    the kernel finds to be a directory, the check answers [True] exactly when
    the folder has an entry called like the base name with its last extension
    stripped, with [.exe] appended in single-file mode. *)
Theorem collision_check_dotted (file_path output_folder : string)
    (one_file : bool) (w : World) (es : gmap string Fs.node) :
  PyStr.contains PyStr.dot (PyStr.basename file_path) = true →
  Os.found output_folder w = Some (Fs.Dir es) →
  will_packaging_overwrite_existing file_path one_file output_folder w
    = (Ok (bool_decide (is_Some (es !! spec_artifact_name file_path one_file))), w, []).
Proof.
  intros Hdot Hdir%found_stat. rewrite (collision_directory _ _ _ _ _ Hdir).
  by rewrite artifact_name_with_extension.
Qed.

Lemma collision_check_dotted_witness :
  will_packaging_overwrite_existing "/src/app.py" true "/home/out" Examples.world
    = (Ok true, Examples.world, []).
Proof.
  refine (collision_check_dotted "/src/app.py" "/home/out" true Examples.world
            Examples.earlier_output _ _).
  - vm_compute. reflexivity.
  - vm_compute. reflexivity.
Defined.

(** X4.  When the kernel finds a regular file at the output folder's path
    (so the path does not end in a separator) the check raises
    [NotADirectoryError]: [os.path.exists] holds and [os.listdir] fails. *)
Theorem collision_check_on_file (file_path output_folder : string)
    (one_file : bool) (w : World) (data : string) :
  Os.found output_folder w = Some (Fs.File data) →
  will_packaging_overwrite_existing file_path one_file output_folder w
    = (Raise (NotADirectoryError output_folder), w, []).
Proof. intros Hfile%found_stat. by eapply collision_not_a_directory. Qed.

Lemma collision_check_on_file_witness :
  will_packaging_overwrite_existing "/src/app.py" false "/home/out/app.exe"
    Examples.world
    = (Raise (NotADirectoryError "/home/out/app.exe"), Examples.world, []).
Proof.
  apply (collision_check_on_file "/src/app.py" "/home/out/app.exe" false
           Examples.world "old").
  vm_compute. reflexivity.
Defined.

(** X5.  For a base name with a dot, the name the check derives in
    directory mode, a dot and a dot-free extension make up the base name
    again: exactly the last extension was cut off. *)
Theorem artifact_name_reassembles (file_path : string) :
  PyStr.contains PyStr.dot (PyStr.basename file_path) = true →
  ∃ ext,
    PyStr.contains PyStr.dot ext = false
    ∧ PyStr.basename file_path = artifact_name file_path false +:+ "." +:+ ext.
Proof.
  intros Hdot. unfold artifact_name.
  set (name := PyStr.basename file_path) in *.
  exists (List.last (PyStr.split PyStr.dot name) "").
  destruct (PyStrFacts.split_with_sep _ _ Hdot) as (h & x & t & Hsplit).
  pose proof (split_parts_free PyStr.dot name) as Hfree.
  pose proof (join_split PyStr.dot name) as Hjoin.
  assert (PyStr.split PyStr.dot name ≠ []) as Hne by by rewrite Hsplit.
  rewrite (app_removelast_last "" Hne) in Hjoin at 1.
  split.
  - rewrite (app_removelast_last "" Hne) in Hfree.
    apply Forall_app in Hfree as [_ Hlast]. by inversion Hlast.
  - rewrite join_snoc in Hjoin; [done|]. by rewrite Hsplit.
Qed.

Lemma artifact_name_reassembles_witness :
  ∃ ext,
    PyStr.contains PyStr.dot ext = false
    ∧ PyStr.basename "/src/my.app.py" = artifact_name "/src/my.app.py" false +:+ "." +:+ ext.
Proof.
  apply (artifact_name_reassembles "/src/my.app.py"). vm_compute. reflexivity.
Defined.

(** ** The option catalog *)

(** X6.  The catalog has one record per parser action, in the parser's
    order, and its last record is always the [filenames] argument the module
    adds itself: required, [nargs='+'], shown as [scriptname], and without
    [container]. *)
Theorem options_end_with_filenames (E : Env) (rs : list (gmap string pyval)) :
  get_pyinstaller_options E = Ok rs →
  List.length rs = List.length (__get_pyinstaller_argument_parser E)
  ∧ ∃ r, last rs = Some r
         ∧ r !! "dest" = Some (VStr "filenames")
         ∧ r !! "nargs" = Some (VStr "+")
         ∧ r !! "metavar" = Some (VStr "scriptname")
         ∧ r !! "required" = Some (VBool true)
         ∧ r !! "option_strings" = Some (VList [])
         ∧ r !! "container" = None.
Proof.
  unfold get_pyinstaller_options. intros H.
  apply clean_actions_ok in H as [-> _]. cbn [app]. split; [by rewrite length_fmap|].
  unfold __get_pyinstaller_argument_parser, add_positional.
  rewrite fmap_app, fmap_cons, fmap_nil, last_snoc.
  eexists. split; [done|]. repeat split; vm_compute; reflexivity.
Qed.

Lemma options_end_with_filenames_witness :
  let rs := delete "container" <$>
              __get_pyinstaller_argument_parser (Examples.env Examples.build_ok) in
  List.length rs = List.length (__get_pyinstaller_argument_parser (Examples.env Examples.build_ok))
  ∧ ∃ r, last rs = Some r
         ∧ r !! "dest" = Some (VStr "filenames")
         ∧ r !! "nargs" = Some (VStr "+")
         ∧ r !! "metavar" = Some (VStr "scriptname")
         ∧ r !! "required" = Some (VBool true)
         ∧ r !! "option_strings" = Some (VList [])
         ∧ r !! "container" = None.
Proof.
  intros rs.
  apply (options_end_with_filenames (Examples.env Examples.build_ok) rs).
  unfold get_pyinstaller_options. apply (clean_actions_all _ []).
  example_parser. repeat (apply Forall_cons; split; [has_container|]).
  apply Forall_nil_2.
Defined.

(** X7.  If some parser action has no [container] attribute, building the
    catalog raises [AttributeError] and returns nothing. *)
Theorem options_missing_container (E : Env) :
  Exists (λ a, a !! "container" = None) (__get_pyinstaller_argument_parser E) →
  get_pyinstaller_options E = Raise (AttributeError "container").
Proof. intros H. by apply clean_actions_raise. Qed.

Lemma options_missing_container_witness :
  get_pyinstaller_options Examples.env_bare = Raise (AttributeError "container").
Proof.
  apply (options_missing_container Examples.env_bare).
  lazy beta iota zeta delta
    [__get_pyinstaller_argument_parser ArgumentParser add_positional
     Examples.env_bare Examples.add_bare_option
     add_makespec_options add_build_options add_log_options app id].
  apply Exists_cons_tl, Exists_cons_hd. vm_compute. reflexivity.
Defined.

(** ** The orchestrator *)

(** The run under given facts about the settings: shapes that contradict
    them are discarded. *)
Ltac same_values :=
  repeat match goal with
         | H1 : ?x = Some _, H2 : ?x = Some _ |- _ =>
             rewrite H1 in H2; injection H2 as ?; subst
         | H1 : ?x = Ok _, H2 : ?x = Ok _ |- _ =>
             rewrite H1 in H2; injection H2 as ?; subst
         | H1 : ?x = Raise _, H2 : ?x = Raise _ |- _ =>
             rewrite H1 in H2; injection H2 as ?; subst
         | H1 : ?x = (_, _), H2 : ?x = (_, _) |- _ =>
             rewrite H1 in H2; injection H2 as ?; subst
         end.

Ltac the_run E cmd options w :=
  let H := fresh "Hshape" in
  pose proof (package_runs E cmd options w) as H;
  destruct (package E cmd options sink w) as [[?r ?w'] ?evs];
  cbn [fst snd] in H; inversion H; subst; clear H;
  same_values;
  repeat match goal with
         | Hp : path_of _ (VStr _) = Some _ |- _ =>
             cbn [path_of] in Hp; injection Hp as ?; subst
         end;
  same_values;
  try match goal with
      | Hk : ?key = _ ∨ ?key = _ |- _ => exfalso; destruct Hk; subst; congruence
      end;
  try match goal with
      | Hc : ∀ s, VStr ?s0 ≠ VStr s |- _ => exfalso; by apply (Hc s0)
      end;
  try (exfalso; lia);
  try congruence.

(** X8.  A command that [shlex.split] rejects is a failed run like any
    other: [package] returns [False] after the traceback, neither PyInstaller
    nor the mover is entered and [sys.argv] stays as it was; the recursion
    limit has already been set. *)
Theorem package_bad_command (E : Env) (cmd : string) (options : gmap string pyval)
    (w : World) (v : pyval) (s : string) (e : exn) :
  options !! "increaseRecursionLimit" = Some v →
  options !! "outputDirectory" = Some (VStr s) →
  1 ≤ chosen_limit E v →
  shlex_split E cmd = Raise e →
  package E cmd options sink w =
    (Ok false, set_recursion_limit (chosen_limit E v) w,
     prelude E cmd ++ limit_lines v ++ failure_lines E e).
Proof.
  intros Hv Hs Hlim Hsplit. the_run E cmd options w; done.
Qed.

Lemma package_bad_command_witness :
  package Examples.env_quoting "pyinstaller 'app.py" Examples.settings sink
    Examples.world =
    (Ok false, set_recursion_limit 5000 Examples.world,
     prelude Examples.env_quoting "pyinstaller 'app.py"
     ++ limit_lines (VBool true)
     ++ failure_lines Examples.env_quoting (ValueError "No closing quotation")).
Proof.
  apply (package_bad_command Examples.env_quoting "pyinstaller 'app.py"
           Examples.settings Examples.world (VBool true) "out"
           (ValueError "No closing quotation")).
  - vm_compute. reflexivity.
  - vm_compute. reflexivity.
  - vm_compute. discriminate.
  - vm_compute. reflexivity.
Defined.

(** X9.  When [package] returns, it returns [True] exactly when PyInstaller
    was entered and left without an exception; what the mover does has no
    part in the result. *)
Theorem package_result (E : Env) (cmd : string) (options : gmap string pyval)
    (w w' : World) (b : bool) (evs : list event) :
  package E cmd options sink w = (Ok b, w', evs) →
  b = true ↔ ∃ a l, Leave (RunPyInstaller a l) None ∈ evs.
Proof.
  intros Hrun. shapes Hrun.
  all: split; [intros Hb; try discriminate Hb; eexists _, _; find_mem
              |intros (a & l & Hin); try done; split_mem Hin].
Qed.

Lemma package_result_witness :
  true = true ↔
  ∃ a l, Leave (RunPyInstaller a l) None ∈
           (package (Examples.env Examples.build_ok) "pyinstaller -y app.py"
              Examples.settings sink Examples.world).2.
Proof.
  pose (run := package (Examples.env Examples.build_ok) "pyinstaller -y app.py"
                 Examples.settings sink Examples.world).
  apply (package_result (Examples.env Examples.build_ok) "pyinstaller -y app.py"
           Examples.settings Examples.world run.1.2 true run.2).
  vm_compute. reflexivity.
Defined.

(** X10.  Whenever the mover is entered, PyInstaller has returned without an
    exception, the directory moved is the one PyInstaller was given after
    [--distpath], and the destination is [os.path.abspath] of the path the
    [outputDirectory] setting gives. *)
Theorem package_moves_the_dist_path (E : Env) (cmd : string)
    (options : gmap string pyval) (w w' : World) (r : result bool)
    (evs : list event) (src dst : string) :
  package E cmd options sink w = (r, w', evs) →
  Enter (MovePackage src dst) ∈ evs →
  src = PyStr.path_join (temporary_directory E) "application"
  ∧ (∃ o s, options !! "outputDirectory" = Some o ∧ path_of E o = Some s
            ∧ dst = Fs.abspath (cwd w) s)
  ∧ ∃ tokens l,
      Leave (RunPyInstaller
               (tokens ++ [ "--distpath"; src;
                            "--workpath"; PyStr.path_join (temporary_directory E) "build";
                            "--specpath"; temporary_directory E ]) l) None ∈ evs.
Proof.
  intros Hrun Hin. shapes Hrun; split_mem Hin.
  all: injection Hin as -> ->.
  all: split; [done|]; split; [by eexists _, _|]; eexists _, _; find_mem.
Qed.

Lemma package_moves_the_dist_path_witness :
  "/tmp/ws/application" = PyStr.path_join "/tmp/ws" "application"
  ∧ (∃ o s, Examples.settings !! "outputDirectory" = Some o
            ∧ path_of (Examples.env Examples.build_ok) o = Some s
            ∧ "/home/out" = Fs.abspath (cwd Examples.world) s)
  ∧ ∃ tokens l,
      Leave (RunPyInstaller
               (tokens ++ [ "--distpath"; "/tmp/ws/application";
                            "--workpath"; PyStr.path_join "/tmp/ws" "build";
                            "--specpath"; "/tmp/ws" ]) l) None ∈
        (package (Examples.env Examples.build_ok) "pyinstaller -y app.py"
           Examples.settings sink Examples.world).2.
Proof.
  pose (run := package (Examples.env Examples.build_ok) "pyinstaller -y app.py"
                 Examples.settings sink Examples.world).
  apply (package_moves_the_dist_path (Examples.env Examples.build_ok)
           "pyinstaller -y app.py" Examples.settings Examples.world
           run.1.2 run.1.1 run.2 "/tmp/ws/application" "/home/out").
  - apply run_eta.
  - vm_compute. find_mem.
Defined.

(** X11.  Whenever PyInstaller is entered, the callback has before that
    received the line [Executing: ] followed by the very [sys.argv] PyInstaller
    starts with, joined by spaces. *)
Theorem package_echoes_argv (E : Env) (cmd : string) (options : gmap string pyval)
    (w w' : World) (r : result bool) (evs : list event) (a : list string) (l : Z) :
  package E cmd options sink w = (r, w', evs) →
  Enter (RunPyInstaller a l) ∈ evs →
  ∃ before after,
    evs = before ++ Enter (RunPyInstaller a l) :: after
    ∧ Output ("Executing: " +:+ PyStr.join " " a +:+ PyStr.nl) ∈ before.
Proof.
  intros Hrun Hin. shapes Hrun; split_mem Hin.
  all: injection Hin as -> ->.
  all: first
    [ eexists [_; _; _; _; _; _], _; split; [reflexivity|find_mem]
    | eexists [_; _; _; _; _], _; split; [reflexivity|find_mem] ].
Qed.

Lemma package_echoes_argv_witness :
  ∃ before after,
    (package (Examples.env Examples.build_fails) "pyinstaller app.py"
       Examples.settings sink Examples.world).2
      = before ++ Enter (RunPyInstaller
                           [ "pyinstaller"; "app.py"; "--distpath"; "/tmp/ws/application";
                             "--workpath"; "/tmp/ws/build"; "--specpath"; "/tmp/ws" ]
                           5000) :: after
    ∧ Output ("Executing: "
              +:+ PyStr.join " "
                    [ "pyinstaller"; "app.py"; "--distpath"; "/tmp/ws/application";
                      "--workpath"; "/tmp/ws/build"; "--specpath"; "/tmp/ws" ]
              +:+ PyStr.nl) ∈ before.
Proof.
  pose (run := package (Examples.env Examples.build_fails) "pyinstaller app.py"
                 Examples.settings sink Examples.world).
  apply (package_echoes_argv (Examples.env Examples.build_fails)
           "pyinstaller app.py" Examples.settings Examples.world
           run.1.2 run.1.1 run.2).
  - apply run_eta.
  - vm_compute. find_mem.
Defined.

(** X12.  Every run, whether it returns or raises, begins with the same
    three lines: the version banner, the build directory and the command as
    given. *)
Theorem package_prelude (E : Env) (cmd : string) (options : gmap string pyval)
    (w : World) :
  ∃ rest,
    (package E cmd options sink w).2 =
      [ Output ("Running auto-py-to-exe v" +:+ version E);
        Output ("Building directory: " +:+ temporary_directory E +:+ PyStr.nl);
        Output ("Provided command: " +:+ cmd +:+ PyStr.nl) ] ++ rest.
Proof.
  pose proof (package_runs E cmd options w) as Hshape.
  destruct (package E cmd options sink w) as [[r w'] evs]. cbn [fst snd] in *.
  inversion Hshape; subst; unfold prelude; cbn [app]; by eexists.
Qed.

(** X13.  An [outputDirectory] setting that is [None], a boolean, an
    integer or a list makes [package] raise [TypeError] right after those
    three lines; the world is untouched and PyInstaller is not entered. *)
Theorem package_bad_directory (E : Env) (cmd : string) (options : gmap string pyval)
    (w : World) (v o : pyval) :
  options !! "increaseRecursionLimit" = Some v →
  options !! "outputDirectory" = Some o →
  no_path o = true →
  package E cmd options sink w = (Raise TypeError, w, prelude E cmd).
Proof.
  intros Hv Ho Hno.
  assert (path_of E o = None) as Hnone by by destruct o.
  the_run E cmd options w; try done.
Qed.

Lemma package_bad_directory_witness :
  package (Examples.env Examples.build_ok) "pyinstaller app.py"
    (<["outputDirectory" := VNone]> Examples.settings) sink Examples.world =
    (Raise TypeError, Examples.world,
     prelude (Examples.env Examples.build_ok) "pyinstaller app.py").
Proof.
  apply (package_bad_directory (Examples.env Examples.build_ok) "pyinstaller app.py"
           (<["outputDirectory" := VNone]> Examples.settings) Examples.world
           (VBool true) VNone).
  - vm_compute. reflexivity.
  - vm_compute. reflexivity.
  - reflexivity.
Defined.

(** A path-like [outputDirectory] is taken through [os.fspath]: the run is
    that of the string it stands for. *)
Example package_takes_a_path_like :
  package (Examples.env_paths Examples.build_ok) "pyinstaller -y app.py"
    (<["outputDirectory" := VObj "PosixPath('out')"]> Examples.settings)
    sink Examples.world
  = package (Examples.env Examples.build_ok) "pyinstaller -y app.py"
      Examples.settings sink Examples.world.
Proof. by vm_compute. Qed.

(** X14.  When PyInstaller raises, [package] leaves the world exactly as
    PyInstaller left it: nothing is created, moved or deleted afterwards, and
    the events are the echoed command, the call and the failure lines. *)
Theorem package_failure_world (E : Env) (cmd : string) (options : gmap string pyval)
    (w w1 : World) (v : pyval) (s : string) (tokens : list string) (e : exn) :
  options !! "increaseRecursionLimit" = Some v →
  options !! "outputDirectory" = Some (VStr s) →
  1 ≤ chosen_limit E v →
  shlex_split E cmd = Ok tokens →
  pyinstaller_main E (invocation_world E v tokens w) = (Raise e, w1) →
  package E cmd options sink w =
    (Ok false, w1,
     prelude E cmd ++ limit_lines v
     ++ executing_lines (tokens ++ forced_overrides E)
     ++ [ Enter (RunPyInstaller (tokens ++ forced_overrides E) (chosen_limit E v));
          Leave (RunPyInstaller (tokens ++ forced_overrides E) (chosen_limit E v))
            (Some e) ]
     ++ failure_lines E e).
Proof.
  intros Hv Hs Hlim Hsplit Htool. the_run E cmd options w; done.
Qed.

Lemma package_failure_world_witness :
  package (Examples.env Examples.build_fails) "pyinstaller app.py"
    Examples.settings sink Examples.world =
    (Ok false,
     invocation_world (Examples.env Examples.build_fails) (VBool true)
       ["pyinstaller"; "app.py"] Examples.world,
     prelude (Examples.env Examples.build_fails) "pyinstaller app.py"
     ++ limit_lines (VBool true)
     ++ executing_lines
          (["pyinstaller"; "app.py"] ++ forced_overrides (Examples.env Examples.build_fails))
     ++ [ Enter (RunPyInstaller
                   (["pyinstaller"; "app.py"]
                    ++ forced_overrides (Examples.env Examples.build_fails)) 5000);
          Leave (RunPyInstaller
                   (["pyinstaller"; "app.py"]
                    ++ forced_overrides (Examples.env Examples.build_fails)) 5000)
            (Some (SystemExit 1)) ]
     ++ failure_lines (Examples.env Examples.build_fails) (SystemExit 1)).
Proof.
  apply (package_failure_world (Examples.env Examples.build_fails)
           "pyinstaller app.py" Examples.settings Examples.world
           (invocation_world (Examples.env Examples.build_fails) (VBool true)
              ["pyinstaller"; "app.py"] Examples.world)
           (VBool true) "out" ["pyinstaller"; "app.py"] (SystemExit 1)).
  - vm_compute. reflexivity.
  - vm_compute. reflexivity.
  - vm_compute. discriminate.
  - vm_compute. reflexivity.
  - reflexivity.
Defined.



(** ** The artifact mover *)


